(** * Archon internal API: origin classifier and credential broker

    Shallow embedding of [src/server/api_routes/internal_api.py].

    - Python [str] values are [string]s; a character stands for a code
      point below 256.
    - Python [int]s are [Z]; the IPv4/IPv6 integers are unbounded and the
      range facts are proved, not assumed.
    - An exception raised by the [ipaddress] module is a [Raise e] result.
    - [os.environ] is a finite map from names to values.
    - The logger is a list of records, appended to in program order. *)

From Stdlib Require Import ZArith String Ascii List Lia Permutation.
From stdpp Require Import gmap strings list.

Local Open Scope Z_scope.

(** ** Results of code that may raise *)

Inductive exc : Type :=
  | AddressValueError
  | NetmaskValueError
  | ValueError.

Inductive result (A : Type) : Type :=
  | Ok (a : A)
  | Raise (e : exc).
Arguments Ok {A} a.
Arguments Raise {A} e.

Definition rbind {A B : Type} (m : result A) (k : A -> result B) : result B :=
  match m with
  | Ok a => k a
  | Raise e => Raise e
  end.

Notation "'let*' x ':=' m 'in' k" := (rbind m (fun x => k))
  (at level 10, x pattern, m at level 100, k at level 200).

(** ** The [str] methods the program uses *)

Module pystr.

Definition truthy (s : string) : bool :=
  match s with EmptyString => false | String _ _ => true end.

Definition len (s : string) : Z := Z.of_nat (String.length s).

(** [s.split(sep)] for a one-character separator: never the empty list. *)
Fixpoint split (sep : ascii) (s : string) : list string :=
  match s with
  | EmptyString => [EmptyString]
  | String c s' =>
      if Ascii.eqb c sep then EmptyString :: split sep s'
      else match split sep s' with
           | h :: t => String c h :: t
           | [] => [String c EmptyString]
           end
  end.

(** [c in s] for a one-character [c]. *)
Fixpoint contains (c : ascii) (s : string) : bool :=
  match s with
  | EmptyString => false
  | String d s' => Ascii.eqb d c || contains c s'
  end.

(** [s.partition(sep)]: head, whether the separator was found, tail. *)
Fixpoint partition (sep : ascii) (s : string) : string * bool * string :=
  match s with
  | EmptyString => (EmptyString, false, EmptyString)
  | String c s' =>
      if Ascii.eqb c sep then (EmptyString, true, s')
      else let '(h, found, t) := partition sep s' in (String c h, found, t)
  end.

(** [str.isspace] on one code point below 256. *)
Definition isspace (c : ascii) : bool :=
  let n := Z.of_nat (nat_of_ascii c) in
  ((9 <=? n) && (n <=? 13)) || ((28 <=? n) && (n <=? 32))
  || (n =? 133) || (n =? 160).

Fixpoint lstrip (s : string) : string :=
  match s with
  | EmptyString => EmptyString
  | String c s' => if isspace c then lstrip s' else s
  end.

Fixpoint rstrip (s : string) : string :=
  match s with
  | EmptyString => EmptyString
  | String c s' =>
      match rstrip s' with
      | EmptyString => if isspace c then EmptyString else String c EmptyString
      | r => String c r
      end
  end.

Definition strip (s : string) : string := rstrip (lstrip s).

Definition is_ascii_digit (c : ascii) : bool :=
  let n := Z.of_nat (nat_of_ascii c) in (48 <=? n) && (n <=? 57).

Fixpoint all_chars (p : ascii -> bool) (s : string) : bool :=
  match s with
  | EmptyString => true
  | String c s' => p c && all_chars p s'
  end.

(** [s.isascii() and s.isdigit()]: [isdigit] is false on the empty string. *)
Definition isascii_isdigit (s : string) : bool :=
  truthy s && all_chars is_ascii_digit s.

Definition digit_val (c : ascii) : Z := Z.of_nat (nat_of_ascii c) - 48.

(** [int(s, 10)] on a string already known to hold decimal digits only. *)
Fixpoint int10_acc (acc : Z) (s : string) : Z :=
  match s with
  | EmptyString => acc
  | String c s' => int10_acc (10 * acc + digit_val c) s'
  end.
Definition int10 (s : string) : Z := int10_acc 0 s.

Definition hex_val (c : ascii) : option Z :=
  let n := Z.of_nat (nat_of_ascii c) in
  if (48 <=? n) && (n <=? 57) then Some (n - 48)
  else if (65 <=? n) && (n <=? 70) then Some (n - 55)
  else if (97 <=? n) && (n <=? 102) then Some (n - 87)
  else None.

Definition is_hex_digit (c : ascii) : bool :=
  match hex_val c with Some _ => true | None => false end.

(** [int(s, 16)] on a string of hex digits; the empty string raises. *)
Fixpoint int16_acc (acc : Z) (s : string) : Z :=
  match s with
  | EmptyString => acc
  | String c s' =>
      int16_acc (16 * acc + match hex_val c with Some v => v | None => 0 end) s'
  end.
Definition int16 (s : string) : result Z :=
  match s with
  | EmptyString => Raise ValueError
  | _ => Ok (int16_acc 0 s)
  end.

Definition hex_digit (d : Z) : ascii :=
  if d <? 10 then ascii_of_nat (Z.to_nat (48 + d))
  else ascii_of_nat (Z.to_nat (87 + d)).

(** ['%x' % n] for [0 <= n]; [fuel] bounds the number of digits. *)
Fixpoint fmt_hex_acc (fuel : nat) (n : Z) (acc : string) : string :=
  match fuel with
  | O => acc
  | S fuel' =>
      let acc' := String (hex_digit (n mod 16)) acc in
      if n / 16 =? 0 then acc' else fmt_hex_acc fuel' (n / 16) acc'
  end.
Definition fmt_hex (n : Z) : string :=
  fmt_hex_acc (S (Z.to_nat (Z.log2 n))) n EmptyString.

End pystr.

(** ** The [ipaddress] module of the Python standard library

    [ip_address] and [ip_network] are library code; the definitions below
    follow CPython's [Lib/ipaddress.py] function by function, for [str]
    arguments. *)

Module ipaddress.

Definition IPV4LENGTH : Z := 32.
Definition IPV6LENGTH : Z := 128.

Inductive IPAddress : Type :=
  | IPv4Address (_ip : Z)
  | IPv6Address (_ip : Z) (_scope_id : option string).

(** A network keeps the integer of its [network_address], the integer of
    its [netmask] and its [_prefixlen]. *)
Inductive IPNetwork : Type :=
  | IPv4Network (network_address netmask _prefixlen : Z)
  | IPv6Network (network_address netmask _prefixlen : Z).

Definition _version (a : IPAddress) : Z :=
  match a with IPv4Address _ => 4 | IPv6Address _ _ => 6 end.

Definition _ip (a : IPAddress) : Z :=
  match a with IPv4Address i => i | IPv6Address i _ => i end.

Definition net_version (n : IPNetwork) : Z :=
  match n with IPv4Network _ _ _ => 4 | IPv6Network _ _ _ => 6 end.

Definition network_address (n : IPNetwork) : Z :=
  match n with IPv4Network a _ _ => a | IPv6Network a _ _ => a end.

Definition netmask (n : IPNetwork) : Z :=
  match n with IPv4Network _ m _ => m | IPv6Network _ m _ => m end.

Definition prefixlen (n : IPNetwork) : Z :=
  match n with IPv4Network _ _ p => p | IPv6Network _ _ p => p end.

Definition _split_optional_netmask (address : string) : result (list string) :=
  let addr := pystr.split "/" address in
  if Z.of_nat (length addr) >? 2 then Raise AddressValueError else Ok addr.

(** [int.bit_length]. *)
Definition bit_length (x : Z) : Z :=
  if x =? 0 then 0 else Z.log2 (Z.abs x) + 1.

Definition _count_righthand_zero_bits (number bits : Z) : Z :=
  if number =? 0 then bits
  else Z.min bits (bit_length (Z.land (Z.lnot number) (number - 1))).

Section Family.
(** [_ALL_ONES] and [_max_prefixlen] of [_BaseV4] or [_BaseV6]. *)
Variable _max_prefixlen : Z.
Let _ALL_ONES : Z := 2 ^ _max_prefixlen - 1.

Definition _ip_int_from_prefix (prefixlen : Z) : Z :=
  Z.lxor _ALL_ONES (Z.shiftr _ALL_ONES prefixlen).

Definition _prefix_from_ip_int (ip_int : Z) : result Z :=
  let trailing_zeroes := _count_righthand_zero_bits ip_int _max_prefixlen in
  let prefixlen := _max_prefixlen - trailing_zeroes in
  let leading_ones := Z.shiftr ip_int trailing_zeroes in
  let all_ones := Z.shiftl 1 prefixlen - 1 in
  if negb (leading_ones =? all_ones) then Raise ValueError
  else Ok prefixlen.

Definition _prefix_from_prefix_string (prefixlen_str : string) : result Z :=
  if negb (pystr.isascii_isdigit prefixlen_str) then Raise NetmaskValueError
  else
    let prefixlen := pystr.int10 prefixlen_str in
    if negb ((0 <=? prefixlen) && (prefixlen <=? _max_prefixlen))
    then Raise NetmaskValueError
    else Ok prefixlen.

(** [_ip_int_from_string] is the family's own parser. *)
Variable _ip_int_from_string : string -> result Z.

Definition _prefix_from_ip_string (ip_str : string) : result Z :=
  match _ip_int_from_string ip_str with
  | Raise _ => Raise NetmaskValueError
  | Ok ip_int =>
      match _prefix_from_ip_int ip_int with
      | Ok p => Ok p
      | Raise _ =>
          let ip_int := Z.lxor ip_int _ALL_ONES in
          match _prefix_from_ip_int ip_int with
          | Ok p => Ok p
          | Raise _ => Raise NetmaskValueError
          end
      end
  end.
End Family.

(** The second component of [_split_addr_prefix]: the text after the
    slash, or the integer [_max_prefixlen] when there is no slash. *)
Inductive mask_arg : Type :=
  | MaskStr (s : string)
  | MaskInt (n : Z).

Definition _split_addr_prefix (_max_prefixlen : Z) (address : string)
  : result (string * mask_arg) :=
  let* address := _split_optional_netmask address in
  match address with
  | addr :: mask :: _ => Ok (addr, MaskStr mask)
  | addr :: [] => Ok (addr, MaskInt _max_prefixlen)
  | [] => Raise AddressValueError
  end.

(** *** IPv4 *)

Definition _parse_octet (octet_str : string) : result Z :=
  if negb (pystr.truthy octet_str) then Raise ValueError
  else if negb (pystr.isascii_isdigit octet_str) then Raise ValueError
  else if pystr.len octet_str >? 3 then Raise ValueError
  else if negb (String.eqb octet_str "0")
          && match octet_str with
             | String c _ => Ascii.eqb c "0"
             | EmptyString => false
             end
  then Raise ValueError
  else
    let octet_int := pystr.int10 octet_str in
    if octet_int >? 255 then Raise ValueError else Ok octet_int.

(** [int.from_bytes(map(f, xs), 'big')]: the first failing [f] raises. *)
Fixpoint from_bytes_big (acc : Z) (f : string -> result Z) (xs : list string)
  : result Z :=
  match xs with
  | [] => Ok acc
  | x :: xs' => let* b := f x in from_bytes_big (256 * acc + b) f xs'
  end.

Definition v4_ip_int_from_string (ip_str : string) : result Z :=
  if negb (pystr.truthy ip_str) then Raise AddressValueError
  else
    let octets := pystr.split "." ip_str in
    if negb (Z.of_nat (length octets) =? 4) then Raise AddressValueError
    else
      match from_bytes_big 0 _parse_octet octets with
      | Ok n => Ok n
      | Raise _ => Raise AddressValueError
      end.

(** [IPv4Address(address)._ip] for a [str] argument. *)
Definition IPv4Address_init (address : string) : result Z :=
  if pystr.contains "/" address then Raise AddressValueError
  else v4_ip_int_from_string address.

Definition v4_make_netmask (arg : mask_arg) : result (Z * Z) :=
  let* prefixlen :=
    match arg with
    | MaskInt prefixlen =>
        if negb ((0 <=? prefixlen) && (prefixlen <=? IPV4LENGTH))
        then Raise NetmaskValueError else Ok prefixlen
    | MaskStr arg =>
        match _prefix_from_prefix_string IPV4LENGTH arg with
        | Ok p => Ok p
        | Raise NetmaskValueError =>
            _prefix_from_ip_string IPV4LENGTH v4_ip_int_from_string arg
        | Raise e => Raise e
        end
    end in
  Ok (_ip_int_from_prefix IPV4LENGTH prefixlen, prefixlen).

Definition IPv4Network_init (address : string) (strict : bool)
  : result IPNetwork :=
  let* (addr, mask) := _split_addr_prefix IPV4LENGTH address in
  let* network_address := IPv4Address_init addr in
  let* (netmask, _prefixlen) := v4_make_netmask mask in
  let packed := network_address in
  if negb (Z.land packed netmask =? packed) then
    if strict then Raise ValueError
    else Ok (IPv4Network (Z.land packed netmask) netmask _prefixlen)
  else Ok (IPv4Network network_address netmask _prefixlen).

(** *** IPv6 *)

Definition _HEXTET_COUNT : Z := 8.

Definition _parse_hextet (hextet_str : string) : result Z :=
  if negb (pystr.all_chars pystr.is_hex_digit hextet_str) then Raise ValueError
  else if pystr.len hextet_str >? 4 then Raise ValueError
  else pystr.int16 hextet_str.

(** [range(a, b)]. *)
Definition range (a b : Z) : list Z :=
  map (fun i => a + Z.of_nat i) (seq 0 (Z.to_nat (b - a))).

(** [parts[i]], a negative [i] counting from the end; the parser only
    uses indices that are in range. *)
Definition getitem (parts : list string) (i : Z) : string :=
  let i := if i <? 0 then i + Z.of_nat (length parts) else i in
  nth (Z.to_nat i) parts EmptyString.

(** The loop that looks for an empty part strictly between the ends. *)
Fixpoint find_skip (parts : list string) (idxs : list Z) (skip_index : option Z)
  : result (option Z) :=
  match idxs with
  | [] => Ok skip_index
  | i :: idxs' =>
      if negb (pystr.truthy (getitem parts i)) then
        match skip_index with
        | Some _ => Raise AddressValueError
        | None => find_skip parts idxs' (Some i)
        end
      else find_skip parts idxs' skip_index
  end.

(** [for i in idxs: ip_int <<= 16; ip_int |= _parse_hextet(parts[i])]. *)
Fixpoint hextets (parts : list string) (idxs : list Z) (ip_int : Z) : result Z :=
  match idxs with
  | [] => Ok ip_int
  | i :: idxs' =>
      let ip_int := Z.shiftl ip_int 16 in
      let* h := _parse_hextet (getitem parts i) in
      hextets parts idxs' (Z.lor ip_int h)
  end.

Definition v6_ip_int_from_string (ip_str : string) : result Z :=
  if negb (pystr.truthy ip_str) then Raise AddressValueError
  else
    let parts := pystr.split ":" ip_str in
    let _min_parts := 3 in
    if Z.of_nat (length parts) <? _min_parts then Raise AddressValueError
    else
      let* parts :=
        if pystr.contains "." (getitem parts (-1)) then
          match IPv4Address_init (getitem parts (-1)) with
          | Raise _ => Raise AddressValueError
          | Ok ipv4_int =>
              Ok (removelast parts
                    ++ [pystr.fmt_hex (Z.land (Z.shiftr ipv4_int 16) 65535)]
                    ++ [pystr.fmt_hex (Z.land ipv4_int 65535)])
          end
        else Ok parts in
      let len_parts := Z.of_nat (length parts) in
      let _max_parts := _HEXTET_COUNT + 1 in
      if len_parts >? _max_parts then Raise AddressValueError
      else
        let* skip_index := find_skip parts (range 1 (len_parts - 1)) None in
        let* (parts_hi, parts_lo, parts_skipped) :=
          match skip_index with
          | Some skip_index =>
              let parts_hi := skip_index in
              let parts_lo := len_parts - skip_index - 1 in
              let* parts_hi :=
                if negb (pystr.truthy (getitem parts 0)) then
                  let parts_hi := parts_hi - 1 in
                  if negb (parts_hi =? 0) then Raise AddressValueError
                  else Ok parts_hi
                else Ok parts_hi in
              let* parts_lo :=
                if negb (pystr.truthy (getitem parts (-1))) then
                  let parts_lo := parts_lo - 1 in
                  if negb (parts_lo =? 0) then Raise AddressValueError
                  else Ok parts_lo
                else Ok parts_lo in
              let parts_skipped := _HEXTET_COUNT - (parts_hi + parts_lo) in
              if parts_skipped <? 1 then Raise AddressValueError
              else Ok (parts_hi, parts_lo, parts_skipped)
          | None =>
              if negb (len_parts =? _HEXTET_COUNT) then Raise AddressValueError
              else if negb (pystr.truthy (getitem parts 0))
              then Raise AddressValueError
              else if negb (pystr.truthy (getitem parts (-1)))
              then Raise AddressValueError
              else Ok (len_parts, 0, 0)
          end in
        match
          (let* ip_int := hextets parts (range 0 parts_hi) 0 in
           let ip_int := Z.shiftl ip_int (16 * parts_skipped) in
           hextets parts (range (- parts_lo) 0) ip_int)
        with
        | Ok ip_int => Ok ip_int
        | Raise _ => Raise AddressValueError
        end.

Definition _split_scope_id (ip_str : string) : result (string * option string) :=
  let '(addr, sep, scope_id) := pystr.partition "%" ip_str in
  if negb sep then Ok (addr, None)
  else if negb (pystr.truthy scope_id) || pystr.contains "%" scope_id
  then Raise AddressValueError
  else Ok (addr, Some scope_id).

(** [IPv6Address(address)] for a [str] argument: [_ip] and [_scope_id]. *)
Definition IPv6Address_init (address : string) : result (Z * option string) :=
  if pystr.contains "/" address then Raise AddressValueError
  else
    let* (addr_str, _scope_id) := _split_scope_id address in
    let* _ip := v6_ip_int_from_string addr_str in
    Ok (_ip, _scope_id).

Definition v6_make_netmask (arg : mask_arg) : result (Z * Z) :=
  let* prefixlen :=
    match arg with
    | MaskInt prefixlen =>
        if negb ((0 <=? prefixlen) && (prefixlen <=? IPV6LENGTH))
        then Raise NetmaskValueError else Ok prefixlen
    | MaskStr arg => _prefix_from_prefix_string IPV6LENGTH arg
    end in
  Ok (_ip_int_from_prefix IPV6LENGTH prefixlen, prefixlen).

Definition IPv6Network_init (address : string) (strict : bool)
  : result IPNetwork :=
  let* (addr, mask) := _split_addr_prefix IPV6LENGTH address in
  let* (network_address, _) := IPv6Address_init addr in
  let* (netmask, _prefixlen) := v6_make_netmask mask in
  let packed := network_address in
  if negb (Z.land packed netmask =? packed) then
    if strict then Raise ValueError
    else Ok (IPv6Network (Z.land packed netmask) netmask _prefixlen)
  else Ok (IPv6Network network_address netmask _prefixlen).

(** *** The two factory functions and the membership test *)

Definition ip_address (address : string) : result IPAddress :=
  match IPv4Address_init address with
  | Ok i => Ok (IPv4Address i)
  | Raise ValueError => Raise ValueError
  | Raise _ =>
      match IPv6Address_init address with
      | Ok (i, scope) => Ok (IPv6Address i scope)
      | Raise ValueError => Raise ValueError
      | Raise _ => Raise ValueError
      end
  end.

Definition ip_network (address : string) (strict : bool) : result IPNetwork :=
  match IPv4Network_init address strict with
  | Ok n => Ok n
  | Raise ValueError => Raise ValueError
  | Raise _ =>
      match IPv6Network_init address strict with
      | Ok n => Ok n
      | Raise ValueError => Raise ValueError
      | Raise _ => Raise ValueError
      end
  end.

(** [other in self] ([_BaseNetwork.__contains__]) for an address [other]. *)
Definition contains (self : IPNetwork) (other : IPAddress) : bool :=
  if negb (net_version self =? _version other) then false
  else Z.land (_ip other) (netmask self) =? network_address self.

End ipaddress.

(** The three names [internal_api.py] imports or uses from [ipaddress]:
    the two factories and the [in] test of a network. *)
Class IPLibrary : Type := {
  IPAddress : Type;
  IPNetwork : Type;
  ip_address : string -> result IPAddress;
  ip_network : string -> bool -> result IPNetwork;
  contains : IPNetwork -> IPAddress -> bool
}.

#[global] Instance cpython : IPLibrary := {|
  IPAddress := ipaddress.IPAddress;
  IPNetwork := ipaddress.IPNetwork;
  ip_address := ipaddress.ip_address;
  ip_network := ipaddress.ip_network;
  contains := ipaddress.contains
|}.

(** ** [internal_api.py]: the origin classifier *)

Inductive level : Type := DEBUG | INFO | WARNING | ERROR.

Record log_record : Type := LogRecord { levelno : level; msg : string }.

(** What the handlers read of a Starlette [Request]: [request.client] is
    [None] or an address with a [host]; the headers are carried along and
    never read. *)
Record Address : Type := { host : string; port : Z }.

Record Request : Type := {
  client : option Address;
  headers : list (string * string);
  url_path : string
}.

(** [os.getenv(key, default)] over [os.environ]. *)
Definition os_getenv (environ : gmap string string) (key default : string)
  : string :=
  match environ !! key with
  | Some v => v
  | None => default
  end.

Definition DEFAULT_ALLOWED_CIDRS : list string :=
  [ "127.0.0.0/8";
    "::1/128";
    "10.0.0.0/8";
    "172.16.0.0/12";
    "192.168.0.0/16";
    "100.64.0.0/10" ].

Definition _get_allowed_cidrs (environ : gmap string string) : list string :=
  let extra := os_getenv environ "ALLOWED_INTERNAL_CIDRS" "" in
  let cidrs :=
    map pystr.strip
        (List.filter (fun c => pystr.truthy (pystr.strip c))
                     (pystr.split "," extra)) in
  DEFAULT_ALLOWED_CIDRS ++ cidrs.

(** The [for cidr in _get_allowed_cidrs()] loop of [is_internal_request]:
    the first range holding [ip] answers [True] with an INFO record, a
    range that [ip_network] rejects leaves a DEBUG record and is skipped,
    and the loop falls through to [return False]. *)
Fixpoint match_cidrs `{IPLibrary} (client_host : string) (ip : IPAddress)
  (cidrs : list string) : bool * list log_record :=
  match cidrs with
  | [] => (false, [])
  | cidr :: cidrs' =>
      match ip_network cidr false with
      | Ok net =>
          if contains net ip then
            (true,
             [LogRecord INFO
                ("Allowing internal request from " +:+ client_host
                   +:+ " in " +:+ cidr)])
          else match_cidrs client_host ip cidrs'
      | Raise _ =>
          let '(r, logs) := match_cidrs client_host ip cidrs' in
          (r,
           LogRecord DEBUG
             ("Skipping invalid CIDR in ALLOWED_INTERNAL_CIDRS: " +:+ cidr)
             :: logs)
      end
  end.

Definition is_internal_request `{IPLibrary} (environ : gmap string string)
  (request : Request) : bool * list log_record :=
  let client_host :=
    match client request with
    | Some a => Some (host a)
    | None => None
    end in
  match client_host with
  | None => (false, [])
  | Some client_host =>
      if negb (pystr.truthy client_host) then (false, [])
      else if String.eqb client_host "localhost" then (true, [])
      else
        match ip_address client_host with
        | Raise _ =>
            (false,
             [LogRecord WARNING
                ("Internal check: could not parse client host as IP: "
                   +:+ client_host)])
        | Ok ip => match_cidrs client_host ip (_get_allowed_cidrs environ)
        end
  end.

(** ** [internal_api.py]: the credential endpoints *)

(** A value of the credentials dict: a [str], or [None]. *)
Abbreviation pyval := (option string).

(** What a route handler does: return a body (sent with status 200),
    raise an [HTTPException], or let an [AttributeError] escape. *)
Inductive response : Type :=
  | Return (body : gmap string pyval)
  | HTTPException (status_code : Z) (detail : string)
  | AttributeError.

Section Endpoints.
(** [credential_service] lives in [services/credential_service.py]. Its
    state is [St]; awaiting [get_credential] either returns a value or
    raises an exception of type [E] (a subclass of [Exception]), and
    leaves the service in a new state. *)
Context {St E : Type}.

Inductive outcome (A : Type) : Type :=
  | Returns (a : A)
  | Raises (e : E).
Arguments Returns {A} a.
Arguments Raises {A} e.

Definition svc (A : Type) : Type := St -> outcome A * St.

Definition ret {A : Type} (a : A) : svc A := fun s => (Returns a, s).

Definition bind {A B : Type} (m : svc A) (k : A -> svc B) : svc B :=
  fun s =>
    match m s with
    | (Returns a, s') => k a s'
    | (Raises e, s') => (Raises e, s')
    end.

(** [get_credential key default decrypt]: a keyword the caller leaves
    out is [None]. *)
Variable get_credential : string -> option string -> option bool -> svc pyval.

(** [str(e)] for the error record. *)
Variable exc_str : E -> string.

Notation "x <- m ;; k" := (bind m (fun x => k))
  (at level 100, m at next level, right associativity).

Definition py_str (v : option string) : string :=
  match v with Some s => s | None => "None" end.

(** The dict display in the [try] block of [get_agent_credentials]; the
    awaits run in source order. *)
Definition agent_credentials_dict (environ : gmap string string)
  : svc (gmap string pyval) :=
  v1 <- get_credential "OPENAI_API_KEY" None (Some true) ;;
  v2 <- get_credential "OPENAI_MODEL" (Some "gpt-4o-mini") None ;;
  v3 <- get_credential "DOCUMENT_AGENT_MODEL" (Some "openai:gpt-4o") None ;;
  v4 <- get_credential "RAG_AGENT_MODEL" (Some "openai:gpt-4o-mini") None ;;
  v5 <- get_credential "TASK_AGENT_MODEL" (Some "openai:gpt-4o") None ;;
  v6 <- get_credential "AGENT_RATE_LIMIT_ENABLED" (Some "true") None ;;
  v7 <- get_credential "AGENT_MAX_RETRIES" (Some "3") None ;;
  let v8 : pyval :=
    Some ("http://archon-mcp:" +:+ py_str (environ !! "ARCHON_MCP_PORT")) in
  v9 <- get_credential "LOG_LEVEL" (Some "INFO") None ;;
  ret (<["LOG_LEVEL" := v9]>
       (<["MCP_SERVICE_URL" := v8]>
        (<["AGENT_MAX_RETRIES" := v7]>
         (<["AGENT_RATE_LIMIT_ENABLED" := v6]>
          (<["TASK_AGENT_MODEL" := v5]>
           (<["RAG_AGENT_MODEL" := v4]>
            (<["DOCUMENT_AGENT_MODEL" := v3]>
             (<["OPENAI_MODEL" := v2]>
              (<["OPENAI_API_KEY" := v1]> ∅))))))))).

(** [{k: v for k, v in credentials.items() if v is not None}]. *)
Definition filter_none (credentials : gmap string pyval) : gmap string pyval :=
  filter (fun kv => kv.2 <> None) credentials.

(** The guard both handlers start with. [request.client.host] in the
    warning raises [AttributeError] when [request.client] is [None]. *)
Definition forbidden (request : Request) (logs : list log_record)
  : response * list log_record :=
  match client request with
  | None => (AttributeError, logs)
  | Some a =>
      (HTTPException 403 "Access forbidden",
       logs ++ [LogRecord WARNING
                  ("Unauthorized access to internal credentials from "
                     +:+ host a)])
  end.

Definition get_agent_credentials (environ : gmap string string)
  (request : Request) (s : St) : response * list log_record * St :=
  let '(internal, logs) := is_internal_request environ request in
  if negb internal then (forbidden request logs, s)
  else
    match agent_credentials_dict environ s with
    | (Returns credentials, s') =>
        let credentials := filter_none credentials in
        match client request with
        | Some a =>
            (Return credentials,
             logs ++ [LogRecord INFO
                        ("Provided credentials to agents service from "
                           +:+ host a)],
             s')
        | None =>
            (HTTPException 500 "Failed to retrieve credentials",
             logs ++ [LogRecord ERROR
                        ("Error retrieving agent credentials: "
                           +:+ "'NoneType' object has no attribute 'host'")],
             s')
        end
    | (Raises e, s') =>
        (HTTPException 500 "Failed to retrieve credentials",
         logs ++ [LogRecord ERROR
                    ("Error retrieving agent credentials: " +:+ exc_str e)],
         s')
    end.

Definition mcp_credentials_dict : svc (gmap string pyval) :=
  v1 <- get_credential "LOG_LEVEL" (Some "INFO") None ;;
  ret (<["LOG_LEVEL" := v1]> ∅).

Definition get_mcp_credentials (environ : gmap string string)
  (request : Request) (s : St) : response * list log_record * St :=
  let '(internal, logs) := is_internal_request environ request in
  if negb internal then (forbidden request logs, s)
  else
    match mcp_credentials_dict s with
    | (Returns credentials, s') =>
        match client request with
        | Some a =>
            (Return credentials,
             logs ++ [LogRecord INFO
                        ("Provided credentials to MCP service from "
                           +:+ host a)],
             s')
        | None =>
            (HTTPException 500 "Failed to retrieve credentials",
             logs ++ [LogRecord ERROR
                        ("Error retrieving MCP credentials: "
                           +:+ "'NoneType' object has no attribute 'host'")],
             s')
        end
    | (Raises e, s') =>
        (HTTPException 500 "Failed to retrieve credentials",
         logs ++ [LogRecord ERROR
                    ("Error retrieving MCP credentials: " +:+ exc_str e)],
         s')
    end.

(** The calls each profile makes, in source order: key, [default]
    keyword, [decrypt] keyword. *)
Definition agents_calls : list (string * option string * option bool) :=
  [ ("OPENAI_API_KEY", None, Some true);
    ("OPENAI_MODEL", Some "gpt-4o-mini", None);
    ("DOCUMENT_AGENT_MODEL", Some "openai:gpt-4o", None);
    ("RAG_AGENT_MODEL", Some "openai:gpt-4o-mini", None);
    ("TASK_AGENT_MODEL", Some "openai:gpt-4o", None);
    ("AGENT_RATE_LIMIT_ENABLED", Some "true", None);
    ("AGENT_MAX_RETRIES", Some "3", None);
    ("LOG_LEVEL", Some "INFO", None) ].

Definition mcp_calls : list (string * option string * option bool) :=
  [ ("LOG_LEVEL", Some "INFO", None) ].

(** Whether some call of the list raises when the calls are awaited one
    after the other from state [s], each in the state its predecessor
    left. *)
Fixpoint store_raises (calls : list (string * option string * option bool))
  (s : St) : bool :=
  match calls with
  | [] => false
  | (key, default, decrypt) :: calls' =>
      match get_credential key default decrypt s with
      | (Raises _, _) => true
      | (Returns _, s') => store_raises calls' s'
      end
  end.

End Endpoints.

Arguments Returns {E A} a.
Arguments Raises {E A} e.

(** ** The credential service, from the specification *)

(** What the secret store answers to one lookup. *)
Inductive store_reply (E : Type) : Type :=
  | Found (v : string)
  | NoValue
  | Failed (e : E).
Arguments Found {E} v.
Arguments NoValue {E}.
Arguments Failed {E} e.

Section CredentialService.
Context {St E : Type}.

(** The store's lookup of [key], with or without decryption. *)
Variable store_get : string -> bool -> St -> store_reply E * St.

(** The value of [decrypt] when the caller leaves the keyword out. *)
Variable decrypt_default : bool.

(** Modelled from the spec: [credential_service.get_credential], which
    is defined in [services/credential_service.py] and not in
    [internal_api.py]. The spec gives the store the interface
    [get(key, decrypt, default) -> optional string], failing with
    [StoreUnavailable] or [DecryptionFailed]; when the store has no
    value the default is used if there is one, and the result is absent
    otherwise; a failure of the lookup is raised to the caller. *)
Definition get_credential (key : string) (default : option string)
  (decrypt : option bool) : @svc St E pyval :=
  fun s =>
    let decrypt :=
      match decrypt with Some d => d | None => decrypt_default end in
    match store_get key decrypt s with
    | (Found v, s') => (Returns (Some v), s')
    | (NoValue, s') => (Returns default, s')
    | (Failed e, s') => (Raises e, s')
    end.

End CredentialService.

(** ** Reference notions the properties are stated against *)

(** An address integer within its family's width. *)
Definition in_family_range (a : ipaddress.IPAddress) : Prop :=
  match a with
  | ipaddress.IPv4Address i => 0 <= i < 2 ^ 32
  | ipaddress.IPv6Address i _ => 0 <= i < 2 ^ 128
  end.

(** CIDR membership as the notation defines it: [x] lies in [base/plen]
    of a [bits]-wide family when both agree on their leading [plen] bits. *)
Definition in_cidr (bits base plen x : Z) : bool :=
  x / 2 ^ (bits - plen) =? base / 2 ^ (bits - plen).

(** The integer of the dotted quad [a.b.c.d]. *)
Definition ipv4 (a b c d : Z) : Z := ((a * 256 + b) * 256 + c) * 256 + d.

(** Membership in one of the six baseline ranges, by family. *)
Definition in_baseline (ip : ipaddress.IPAddress) : bool :=
  match ip with
  | ipaddress.IPv4Address x =>
      in_cidr 32 (ipv4 127 0 0 0) 8 x
      || in_cidr 32 (ipv4 10 0 0 0) 8 x
      || in_cidr 32 (ipv4 172 16 0 0) 12 x
      || in_cidr 32 (ipv4 192 168 0 0) 16 x
      || in_cidr 32 (ipv4 100 64 0 0) 10 x
  | ipaddress.IPv6Address x _ => in_cidr 128 1 128 x
  end.



(** Whether [cidr] is a range [ip_network] accepts and that holds [ip]. *)
Definition in_range `{IPLibrary} (ip : IPAddress) (cidr : string) : bool :=
  match ip_network cidr false with
  | Ok net => contains net ip
  | Raise _ => false
  end.

(** The request a transport reports for peer address [h]. *)
Definition request_from (h : string) : Request :=
  {| client := Some {| host := h; port := 0 |}; headers := []; url_path := "" |}.

(** ** [internal_api.py]: the health endpoint *)

(** [internal_health]: the fixed payload of the health endpoint. *)
Definition internal_health : gmap string string :=
  <["service" := "internal-api"]> (<["status" := "healthy"]> ∅).

(** ** Further notions the properties are stated against *)

(** [sep.join(parts)]. *)
Fixpoint join (sep : ascii) (parts : list string) : string :=
  match parts with
  | [] => EmptyString
  | p :: rest =>
      match rest with
      | [] => p
      | _ :: _ => p +:+ String sep (join sep rest)
      end
  end.

(** A string that [strip] leaves alone. *)
Definition trimmed (s : string) : bool := String.eqb (pystr.strip s) s.

(** The DEBUG record the range loop leaves for an entry it skips. *)
Definition skip_record (cidr : string) : log_record :=
  LogRecord DEBUG ("Skipping invalid CIDR in ALLOWED_INTERNAL_CIDRS: " +:+ cidr).

(** Whether [ip_network] rejects an allow-set entry. *)
Definition rejected `{IPLibrary} (cidr : string) : bool :=
  match ip_network cidr false with
  | Ok _ => false
  | Raise _ => true
  end.



(** Same family and same integer; a scope id is not compared. *)
Definition same_address (ip ip' : ipaddress.IPAddress) : bool :=
  match ip, ip' with
  | ipaddress.IPv4Address x, ipaddress.IPv4Address y => x =? y
  | ipaddress.IPv6Address x _, ipaddress.IPv6Address y _ => x =? y
  | _, _ => false
  end.

(** The keys the agents handler can put in its body. *)
Definition agents_keys : list string :=
  [ "OPENAI_API_KEY"; "OPENAI_MODEL"; "DOCUMENT_AGENT_MODEL";
    "RAG_AGENT_MODEL"; "TASK_AGENT_MODEL"; "AGENT_RATE_LIMIT_ENABLED";
    "AGENT_MAX_RETRIES"; "MCP_SERVICE_URL"; "LOG_LEVEL" ].

Section AwaitAll.
Context {St E : Type}.
Variable get_credential : string -> option string -> option bool -> @svc St E pyval.

(** The state the service is left in when the calls of a list are awaited
    in order and the first one that raises ends the sequence. *)
Fixpoint await_all (calls : list (string * option string * option bool))
  (s : St) : St :=
  match calls with
  | [] => s
  | (key, default, decrypt) :: calls' =>
      match get_credential key default decrypt s with
      | (Returns _, s') => await_all calls' s'
      | (Raises _, s') => s'
      end
  end.
End AwaitAll.

(** Sample credential services for concrete runs: the state counts the
    calls made. *)
Definition answering (v : pyval)
  : string -> option string -> option bool -> @svc nat unit pyval :=
  fun _ _ _ s => (Returns v, S s).

Definition failing_at (bad : string)
  : string -> option string -> option bool -> @svc nat unit pyval :=
  fun key _ _ s =>
    if String.eqb key bad then (Raises tt, S s)
    else (Returns (Some "value"), S s).

Definition silent_on (missing : string)
  : string -> option string -> option bool -> @svc nat unit pyval :=
  fun key _ _ s =>
    if String.eqb key missing then (Returns None, S s)
    else (Returns (Some key), S s).

Definition no_text : unit -> string := fun _ => EmptyString.

(** * Properties *)

(** ** Splitting at a separator *)

Module pystr_facts.

Lemma split_nonempty (sep : ascii) (s : string) :
  exists h t, pystr.split sep s = h :: t.
Proof.
  destruct s as [|c s]; cbn [pystr.split]; [now eexists _, _|].
  destruct (Ascii.eqb c sep); [now eexists _, _|].
  destruct (pystr.split sep s); now eexists _, _.
Qed.

(** [(s1 + sep + s2).split(sep) == s1.split(sep) + s2.split(sep)]. *)
Lemma split_app (sep : ascii) (s1 s2 : string) :
  pystr.split sep (s1 +:+ String sep s2)
  = pystr.split sep s1 ++ pystr.split sep s2.
Proof.
  induction s1 as [|c s1 IH]; simpl.
  - now rewrite Ascii.eqb_refl.
  - destruct (Ascii.eqb c sep); [now rewrite IH|].
    rewrite IH. destruct (split_nonempty sep s1) as (h & t & ->). reflexivity.
Qed.

Lemma split_no_sep (sep : ascii) (s : string) :
  pystr.contains sep s = false -> pystr.split sep s = [s].
Proof.
  induction s as [|c s IH]; cbn [pystr.contains pystr.split]; [reflexivity|].
  intros H. apply orb_false_elim in H as [-> Hs]. now rewrite IH.
Qed.

End pystr_facts.

(** ** Range of the parsed integers *)

Ltac case_if_in H :=
  repeat match type of H with
         | context [if ?c then _ else _] =>
             let E := fresh "Hc" in destruct c eqn:E; try discriminate H
         end.

Module ipaddress_facts.
Import ipaddress.

Lemma int10_acc_nonneg (s : string) :
  forall acc, pystr.all_chars pystr.is_ascii_digit s = true ->
              0 <= acc -> 0 <= pystr.int10_acc acc s.
Proof.
  induction s as [|c s IH]; intros acc Hd Hacc; simpl in *; [lia|].
  apply andb_prop in Hd as [Hc Hs].
  apply IH; [exact Hs|].
  unfold pystr.is_ascii_digit, pystr.digit_val in *. lia.
Qed.

Lemma _parse_octet_range (s : string) (b : Z) :
  _parse_octet s = Ok b -> 0 <= b <= 255.
Proof.
  unfold _parse_octet. intros H. case_if_in H.
  injection H as <-. split; [|lia].
  apply int10_acc_nonneg; [|lia].
  unfold pystr.isascii_isdigit in *.
  apply negb_false_iff in Hc0. apply andb_prop in Hc0. tauto.
Qed.

Lemma from_bytes_big_range (f : string -> result Z) (xs : list string) :
  (forall x v, f x = Ok v -> 0 <= v <= 255) ->
  forall acc n, from_bytes_big acc f xs = Ok n -> 0 <= acc ->
                0 <= n < (acc + 1) * 256 ^ Z.of_nat (length xs).
Proof.
  intros Hf. induction xs as [|x xs IH]; intros acc n H Hacc; simpl in H.
  - injection H as <-. simpl. lia.
  - destruct (f x) as [b|] eqn:Hb; simpl in H; [|discriminate].
    apply Hf in Hb. apply IH in H; [|lia].
    replace (Z.of_nat (length (x :: xs))) with (Z.succ (Z.of_nat (length xs)))
      by (simpl; lia).
    rewrite Z.pow_succ_r by lia.
    assert (0 < 256 ^ Z.of_nat (length xs)) by (apply Z.pow_pos_nonneg; lia).
    nia.
Qed.

Lemma v4_ip_int_from_string_range (s : string) (n : Z) :
  v4_ip_int_from_string s = Ok n -> 0 <= n < 2 ^ 32.
Proof.
  unfold v4_ip_int_from_string. intros H. case_if_in H.
  destruct (from_bytes_big 0 _parse_octet (pystr.split "." s)) as [m|] eqn:Hm;
    [|discriminate].
  injection H as <-.
  apply from_bytes_big_range in Hm; [|apply _parse_octet_range|lia].
  apply negb_false_iff, Z.eqb_eq in Hc0. rewrite Hc0 in Hm.
  change (2 ^ 32) with ((0 + 1) * 256 ^ 4). exact Hm.
Qed.

Lemma IPv4Address_init_range (s : string) (n : Z) :
  IPv4Address_init s = Ok n -> 0 <= n < 2 ^ 32.
Proof.
  unfold IPv4Address_init. intros H. case_if_in H.
  now apply v4_ip_int_from_string_range in H.
Qed.

Lemma lor_lt_pow2 (a b n : Z) :
  0 <= a < 2 ^ n -> 0 <= b < 2 ^ n -> 0 <= Z.lor a b < 2 ^ n.
Proof.
  intros Ha Hb.
  assert (Hnn : 0 <= Z.lor a b) by (apply Z.lor_nonneg; lia).
  split; [exact Hnn|].
  destruct (Z.eq_dec (Z.lor a b) 0) as [->|Hne]; [lia|].
  assert (Hn : 0 <= n).
  { destruct (Z.le_gt_cases 0 n); [lia|]. rewrite Z.pow_neg_r in Ha; lia. }
  destruct (Z.eq_dec n 0) as [->|Hn0].
  { assert (a = 0) by (simpl in *; lia). assert (b = 0) by (simpl in *; lia).
    subst. now simpl in Hne. }
  apply Z.log2_lt_pow2; [lia|].
  rewrite Z.log2_lor by lia.
  apply Z.max_lub_lt.
  - destruct (Z.eq_dec a 0) as [->|]; [simpl; lia|apply Z.log2_lt_pow2; lia].
  - destruct (Z.eq_dec b 0) as [->|]; [simpl; lia|apply Z.log2_lt_pow2; lia].
Qed.

Lemma hex_val_range (c : ascii) (v : Z) : pystr.hex_val c = Some v -> 0 <= v < 16.
Proof.
  unfold pystr.hex_val. intros H. case_if_in H; try discriminate; injection H as <-; lia.
Qed.

Lemma int16_acc_range (s : string) :
  forall acc, 0 <= acc ->
    0 <= pystr.int16_acc acc s < (acc + 1) * 16 ^ Z.of_nat (String.length s).
Proof.
  induction s as [|c s IH]; intros acc Hacc.
  - simpl. lia.
  - cbn [pystr.int16_acc String.length].
    assert (Hv : 0 <= match pystr.hex_val c with Some v => v | None => 0 end < 16).
    { destruct (pystr.hex_val c) eqn:E; [eapply hex_val_range; eauto|lia]. }
    specialize (IH (16 * acc + match pystr.hex_val c with Some v => v | None => 0 end)).
    rewrite Nat2Z.inj_succ, Z.pow_succ_r by lia.
    assert (0 < 16 ^ Z.of_nat (String.length s)) by (apply Z.pow_pos_nonneg; lia).
    nia.
Qed.

Lemma _parse_hextet_range (s : string) (h : Z) :
  _parse_hextet s = Ok h -> 0 <= h < 2 ^ 16.
Proof.
  unfold _parse_hextet, pystr.len. intros H. case_if_in H.
  unfold pystr.int16 in H. destruct s as [|c s]; [discriminate|].
  injection H as <-.
  pose proof (int16_acc_range (String c s) 0 ltac:(lia)) as Hr.
  assert (Hl : Z.of_nat (String.length (String c s)) <= 4) by lia.
  assert (16 ^ Z.of_nat (String.length (String c s)) <= 16 ^ 4)
    by (apply Z.pow_le_mono_r; lia).
  change (2 ^ 16) with (16 ^ 4). cbn [pystr.int16_acc] in Hr |- *. lia.
Qed.

Lemma length_range (a b : Z) : length (range a b) = Z.to_nat (b - a).
Proof. unfold range. now rewrite length_map, length_seq. Qed.

Lemma in_range_bounds (a b i : Z) : In i (range a b) -> a <= i < b.
Proof.
  unfold range. rewrite in_map_iff. intros (k & <- & Hk).
  apply in_seq in Hk. lia.
Qed.

Lemma find_skip_some (parts : list string) (idxs : list Z) :
  forall init i, find_skip parts idxs init = Ok (Some i) ->
                 init = Some i \/ In i idxs.
Proof.
  induction idxs as [|j idxs IH]; intros init i H; simpl in H.
  - injection H as ->. now left.
  - destruct (negb (pystr.truthy (getitem parts j))).
    + destruct init; [discriminate|].
      apply IH in H as [H|H]; [injection H as ->; right; now left|right; now right].
    + apply IH in H as [H|H]; [now left|right; now right].
Qed.

Lemma hextets_range (parts : list string) (idxs : list Z) :
  forall acc n k, hextets parts idxs acc = Ok n -> 0 <= k -> 0 <= acc < 2 ^ k ->
    0 <= n < 2 ^ (k + 16 * Z.of_nat (length idxs)).
Proof.
  induction idxs as [|i idxs IH]; intros acc n k H Hk Hacc.
  - simpl in H. injection H as <-. simpl. now rewrite Z.add_0_r.
  - cbn [hextets] in H. 
    destruct (_parse_hextet (getitem parts i)) as [h|] eqn:Hh; simpl in H; [|discriminate].
    apply _parse_hextet_range in Hh.
    apply (IH _ _ (k + 16)) in H; [|lia|].
    + replace (k + 16 * Z.of_nat (length (i :: idxs)))
        with (k + 16 + 16 * Z.of_nat (length idxs)) by (simpl; lia).
      exact H.
    + apply lor_lt_pow2.
      * rewrite Z.shiftl_mul_pow2 by lia. rewrite Z.pow_add_r by lia. nia.
      * rewrite Z.pow_add_r by lia.
        assert (0 < 2 ^ k) by (apply Z.pow_pos_nonneg; lia). nia.
Qed.

Lemma v6_ip_int_from_string_range (s : string) (n : Z) :
  v6_ip_int_from_string s = Ok n -> 0 <= n < 2 ^ 128.
Proof.
  unfold v6_ip_int_from_string. intros H.
  destruct (negb (pystr.truthy s)); [discriminate|].
  destruct (_ <? 3); [discriminate|].
  match type of H with rbind ?m _ = _ => destruct m as [parts|] eqn:Hparts end;
    [|discriminate].
  clear Hparts. cbn [rbind] in H.
  set (len := Z.of_nat (length parts)) in *.
  destruct (len >? _HEXTET_COUNT + 1) eqn:Hmax; [discriminate|].
  destruct (find_skip parts (range 1 (len - 1)) None) as [skip|] eqn:Hskip;
    [|discriminate].
  cbn [rbind] in H.
  match type of H with rbind ?m _ = _ => destruct m as [[[hi lo] sk]|] eqn:Hsplit end;
    [|discriminate].
  cbn [rbind] in H.
  assert (Hcounts : 0 <= hi /\ 0 <= lo /\ 0 <= sk /\ hi + lo + sk = 8).
  { unfold _HEXTET_COUNT in *. destruct skip as [i|].
    - apply find_skip_some in Hskip as [Hskip|Hskip]; [discriminate|].
      apply in_range_bounds in Hskip.
      unfold rbind in Hsplit. case_if_in Hsplit;
        injection Hsplit as <- <- <-; lia.
    - case_if_in Hsplit. injection Hsplit as <- <- <-. lia. }
  clear Hsplit Hskip.
  destruct (hextets parts (range 0 hi) 0) as [n1|] eqn:H1; [|discriminate].
  cbn [rbind] in H.
  destruct (hextets parts (range (- lo) 0) (n1 ≪ (16 * sk))) as [n2|] eqn:H2;
    [|discriminate].
  injection H as <-.
  apply (hextets_range _ _ _ _ 0) in H1; [|lia|simpl; lia].
  rewrite length_range in H1.
  apply (hextets_range _ _ _ _ (16 * hi + 16 * sk)) in H2; [|lia|].
  - rewrite length_range in H2.
    replace (16 * hi + 16 * sk + 16 * Z.of_nat (Z.to_nat (0 - - lo)))
      with 128 in H2 by lia.
    exact H2.
  - rewrite Z.shiftl_mul_pow2 by lia.
    replace (0 + 16 * Z.of_nat (Z.to_nat (hi - 0))) with (16 * hi) in H1 by lia.
    rewrite Z.pow_add_r by lia.
    assert (0 < 2 ^ (16 * sk)) by (apply Z.pow_pos_nonneg; lia).
    nia.
Qed.

Lemma IPv6Address_init_range (s : string) (n : Z) (scope : option string) :
  IPv6Address_init s = Ok (n, scope) -> 0 <= n < 2 ^ 128.
Proof.
  unfold IPv6Address_init. intros H.
  destruct (pystr.contains "/" s); [discriminate|].
  destruct (_split_scope_id s) as [[addr sc]|]; [|discriminate].
  cbn [rbind] in H.
  destruct (v6_ip_int_from_string addr) as [m|] eqn:Hm; [|discriminate].
  cbn [rbind] in H. injection H as <- <-.
  now apply v6_ip_int_from_string_range in Hm.
Qed.

Lemma ip_address_range (s : string) (a : IPAddress) :
  ip_address s = Ok a -> in_family_range a.
Proof.
  unfold ip_address. intros H.
  destruct (IPv4Address_init s) as [i|e] eqn:H4.
  - injection H as <-. now apply IPv4Address_init_range in H4.
  - destruct (IPv6Address_init s) as [[i sc]|e'] eqn:H6.
    + destruct e; try discriminate; injection H as <-;
        now apply IPv6Address_init_range in H6.
    + destruct e, e'; discriminate.
Qed.

End ipaddress_facts.

(** ** Netmasks and CIDR membership *)

Module cidr_facts.

Lemma land_prefix_mask (w p x : Z) :
  0 <= p <= w -> 0 <= x < 2 ^ w ->
  Z.land x (ipaddress._ip_int_from_prefix w p) = Z.shiftl (Z.shiftr x (w - p)) (w - p).
Proof.
  intros Hp Hx. unfold ipaddress._ip_int_from_prefix.
  replace (2 ^ w - 1) with (Z.ones w) by (rewrite Z.ones_equiv; lia).
  apply Z.bits_inj'. intros n Hn.
  rewrite Z.land_spec, Z.lxor_spec, Z.shiftr_spec by lia.
  rewrite Z.shiftl_spec by lia.
  destruct (Z.lt_ge_cases n (w - p)) as [Hlt|Hge].
  - rewrite (Z.testbit_neg_r _ (n - (w - p))) by lia.
    rewrite !Z.ones_spec_low by lia. simpl. apply andb_false_r.
  - rewrite Z.shiftr_spec by lia.
    replace (n - (w - p) + (w - p)) with n by lia.
    destruct (Z.lt_ge_cases n w) as [Hlt|Hge'].
    + rewrite Z.ones_spec_low by lia.
      rewrite Z.ones_spec_high by lia. simpl. apply andb_true_r.
    + assert (Z.testbit x n = false) as ->; [|reflexivity].
      destruct (Z.eq_dec x 0) as [->|]; [apply Z.bits_0|].
      apply Z.bits_above_log2; [lia|].
      apply Z.lt_le_trans with w; [|lia]. apply Z.log2_lt_pow2; lia.
Qed.

Lemma masked_eqb_in_cidr (w p b x : Z) :
  0 <= p <= w -> 0 <= x < 2 ^ w -> 0 <= b < 2 ^ w ->
  (Z.land x (ipaddress._ip_int_from_prefix w p) =? Z.land b (ipaddress._ip_int_from_prefix w p))
  = in_cidr w b p x.
Proof.
  intros Hp Hx Hb. unfold in_cidr.
  rewrite !land_prefix_mask by assumption.
  rewrite <- !Z.shiftr_div_pow2 by lia.
  apply eq_true_iff_eq. rewrite !Z.eqb_eq. split; [|congruence].
  intros H. apply (f_equal (fun z => Z.shiftr z (w - p))) in H.
  rewrite !Z.shiftr_shiftl_l in H by lia.
  now rewrite Z.sub_diag, !Z.shiftl_0_r in H.
Qed.

Lemma contains_v4_in_cidr (b p x : Z) :
  0 <= p <= 32 -> 0 <= b < 2 ^ 32 ->
  Z.land b (ipaddress._ip_int_from_prefix 32 p) = b -> 0 <= x < 2 ^ 32 ->
  ipaddress.contains (ipaddress.IPv4Network b (ipaddress._ip_int_from_prefix 32 p) p) (ipaddress.IPv4Address x)
  = in_cidr 32 b p x.
Proof.
  intros Hp Hb Hal Hx. unfold ipaddress.contains. cbn.
  rewrite <- Hal at 1. now apply masked_eqb_in_cidr.
Qed.

Lemma contains_v6_in_cidr (b p x : Z) (scope : option string) :
  0 <= p <= 128 -> 0 <= b < 2 ^ 128 ->
  Z.land b (ipaddress._ip_int_from_prefix 128 p) = b -> 0 <= x < 2 ^ 128 ->
  ipaddress.contains (ipaddress.IPv6Network b (ipaddress._ip_int_from_prefix 128 p) p)
                     (ipaddress.IPv6Address x scope)
  = in_cidr 128 b p x.
Proof.
  intros Hp Hb Hal Hx. unfold ipaddress.contains. cbn.
  rewrite <- Hal at 1. now apply masked_eqb_in_cidr.
Qed.

Lemma contains_v4_net_v6_addr (b m p x : Z) (scope : option string) :
  ipaddress.contains (ipaddress.IPv4Network b m p) (ipaddress.IPv6Address x scope) = false.
Proof. reflexivity. Qed.

Lemma contains_v6_net_v4_addr (b m p x : Z) :
  ipaddress.contains (ipaddress.IPv6Network b m p) (ipaddress.IPv4Address x) = false.
Proof. reflexivity. Qed.

(** The baseline entries and the documentation range, as [ip_network]
    reads them. *)
Lemma net_127 : ipaddress.ip_network "127.0.0.0/8" false
                = Ok (ipaddress.IPv4Network (ipv4 127 0 0 0) (ipaddress._ip_int_from_prefix 32 8) 8).
Proof. vm_compute. reflexivity. Qed.

Lemma net_loopback6 : ipaddress.ip_network "::1/128" false
                      = Ok (ipaddress.IPv6Network 1 (ipaddress._ip_int_from_prefix 128 128) 128).
Proof. vm_compute. reflexivity. Qed.

Lemma net_10 : ipaddress.ip_network "10.0.0.0/8" false
               = Ok (ipaddress.IPv4Network (ipv4 10 0 0 0) (ipaddress._ip_int_from_prefix 32 8) 8).
Proof. vm_compute. reflexivity. Qed.

Lemma net_172 : ipaddress.ip_network "172.16.0.0/12" false
                = Ok (ipaddress.IPv4Network (ipv4 172 16 0 0) (ipaddress._ip_int_from_prefix 32 12) 12).
Proof. vm_compute. reflexivity. Qed.

Lemma net_192 : ipaddress.ip_network "192.168.0.0/16" false
                = Ok (ipaddress.IPv4Network (ipv4 192 168 0 0) (ipaddress._ip_int_from_prefix 32 16) 16).
Proof. vm_compute. reflexivity. Qed.

Lemma net_100 : ipaddress.ip_network "100.64.0.0/10" false
                = Ok (ipaddress.IPv4Network (ipv4 100 64 0 0) (ipaddress._ip_int_from_prefix 32 10) 10).
Proof. vm_compute. reflexivity. Qed.

Lemma net_203 : ipaddress.ip_network "203.0.113.0/24" false
                = Ok (ipaddress.IPv4Network (ipv4 203 0 113 0) (ipaddress._ip_int_from_prefix 32 24) 24).
Proof. vm_compute. reflexivity. Qed.

Ltac side_cond Hx :=
  first [ exact Hx | lia | vm_compute; reflexivity
        | vm_compute; split; congruence ].

Lemma baseline_v4 (x : Z) :
  0 <= x < 2 ^ 32 ->
  existsb (@in_range cpython (ipaddress.IPv4Address x)) DEFAULT_ALLOWED_CIDRS
  = in_baseline (ipaddress.IPv4Address x).
Proof.
  intros Hx. unfold DEFAULT_ALLOWED_CIDRS, in_range, in_baseline.
  cbn [existsb ip_network contains cpython].
  rewrite net_127, net_loopback6, net_10, net_172, net_192, net_100.
  rewrite contains_v6_net_v4_addr.
  rewrite !contains_v4_in_cidr by side_cond Hx.
  now rewrite !orb_false_r, !orb_false_l, !orb_assoc.
Qed.

Lemma baseline_v6 (x : Z) (scope : option string) :
  0 <= x < 2 ^ 128 ->
  existsb (@in_range cpython (ipaddress.IPv6Address x scope)) DEFAULT_ALLOWED_CIDRS
  = in_baseline (ipaddress.IPv6Address x scope).
Proof.
  intros Hx. unfold DEFAULT_ALLOWED_CIDRS, in_range, in_baseline.
  cbn [existsb ip_network contains cpython].
  rewrite net_127, net_loopback6, net_10, net_172, net_192, net_100.
  rewrite !contains_v4_net_v6_addr.
  rewrite contains_v6_in_cidr by side_cond Hx.
  now rewrite !orb_false_r, !orb_false_l.
Qed.

End cidr_facts.

(** ** Networks as [ip_network] builds them *)

Module network_facts.
Import ipaddress ipaddress_facts.














End network_facts.

(** ** The origin classifier, for any address library *)

Section Classifier.
Context `{L : IPLibrary}.

Lemma match_cidrs_fst (client_host : string) (ip : IPAddress)
  (cidrs : list string) :
  (match_cidrs client_host ip cidrs).1 = existsb (in_range ip) cidrs.
Proof.
  induction cidrs as [|cidr cidrs IH]; [reflexivity|].
  cbn [match_cidrs existsb]. unfold in_range at 1.
  destruct (ip_network cidr false) as [net|e].
  - destruct (contains net ip); [reflexivity|exact IH].
  - destruct (match_cidrs client_host ip cidrs) as [r logs]. exact IH.
Qed.

Lemma existsb_same_elements (f : string -> bool) (l l' : list string) :
  (forall c, In c l <-> In c l') -> existsb f l = existsb f l'.
Proof.
  intros Hll'. apply eq_true_iff_eq. rewrite !existsb_exists.
  split; intros (c & Hc & Hf); exists c; split; try apply Hll'; assumption.
Qed.

Lemma match_cidrs_logged (client_host : string) (ip : IPAddress)
  (cidrs : list string) :
  (match_cidrs client_host ip cidrs).1 = true ->
  exists cidr, In cidr cidrs /\ in_range ip cidr = true
    /\ last (match_cidrs client_host ip cidrs).2
       = Some (LogRecord INFO ("Allowing internal request from "
                                 +:+ client_host +:+ " in " +:+ cidr)).
Proof.
  induction cidrs as [|cidr cidrs IH]; [discriminate|].
  cbn [match_cidrs]. unfold in_range.
  destruct (ip_network cidr false) as [net|e] eqn:Hnet.
  - destruct (contains net ip) eqn:Hin.
    + intros _. exists cidr. rewrite Hnet. repeat split; [now left|exact Hin].
    + intros H. destruct (IH H) as (c & Hc & Hr & Hl).
      exists c. repeat split; [now right|exact Hr|exact Hl].
  - destruct (match_cidrs client_host ip cidrs) as [r logs] eqn:Hm.
    cbn [fst snd] in *. intros H. destruct (IH H) as (c & Hc & Hr & Hl).
    exists c. repeat split; [now right|exact Hr|].
    destruct logs as [|rec logs]; [discriminate|].
    now rewrite last_cons_cons.
Qed.

Lemma is_internal_request_parsed (environ : gmap string string)
  (request : Request) (a : Address) (ip : IPAddress) :
  client request = Some a -> pystr.truthy (host a) = true ->
  host a <> "localhost" -> ip_address (host a) = Ok ip ->
  is_internal_request environ request
  = match_cidrs (host a) ip (_get_allowed_cidrs environ).
Proof.
  intros Hc Ht Hl Hip. unfold is_internal_request. rewrite Hc, Ht.
  cbn [negb]. apply String.eqb_neq in Hl. now rewrite Hl, Hip.
Qed.

(** The verdict is a function of the peer's host text and of the
    allow-set alone. *)
Lemma is_internal_request_of_allow_set (environ environ' : gmap string string)
  (request : Request) :
  (forall ip, existsb (in_range ip) (_get_allowed_cidrs environ)
              = existsb (in_range ip) (_get_allowed_cidrs environ')) ->
  (is_internal_request environ request).1
  = (is_internal_request environ' request).1.
Proof.
  intros Hsets. unfold is_internal_request.
  destruct (client request) as [a|]; [|reflexivity].
  destruct (negb (pystr.truthy (host a))); [reflexivity|].
  destruct (String.eqb (host a) "localhost"); [reflexivity|].
  destruct (ip_address (host a)) as [ip|e]; [|reflexivity].
  rewrite !match_cidrs_fst. exact (Hsets ip).
Qed.

(** C1. A request with no peer address, with an empty one, or with one
    that is neither the word localhost nor text [ip_address] accepts, is
    not internal. *)
Theorem fail_closed (environ : gmap string string) (request : Request) :
  (client request = None
   \/ exists a, client request = Some a
        /\ (host a = ""
            \/ (host a <> "localhost"
                /\ exists e, ip_address (host a) = Raise e))) ->
  (is_internal_request environ request).1 = false.
Proof.
  unfold is_internal_request.
  intros [-> | (a & -> & [-> | (Hl & e & He)])]; [reflexivity..|].
  destruct (negb (pystr.truthy (host a))); [reflexivity|].
  apply String.eqb_neq in Hl. now rewrite Hl, He.
Qed.

(** C7. For the peer address localhost the answer is true whatever the
    address library and the environment are, and nothing is logged: the
    check returns before [ip_address] or any range is looked at. *)
Theorem localhost_is_internal (environ : gmap string string)
  (request : Request) (a : Address) :
  client request = Some a -> host a = "localhost" ->
  is_internal_request environ request = (true, []).
Proof.
  intros Hc Hh. unfold is_internal_request. now rewrite Hc, Hh.
Qed.

(** C8. The verdict of the range loop is true exactly when some entry of
    the allow-set is a valid range holding the address; two allow-sets
    with the same entries, in any order and with any repetition, give
    the same verdict; only the range named in the INFO record depends on
    the order. *)
Theorem verdict_independent_of_order (client_host : string) (ip : IPAddress)
  (cidrs cidrs' : list string) :
  (forall c, In c cidrs <-> In c cidrs') ->
  (match_cidrs client_host ip cidrs).1 = (match_cidrs client_host ip cidrs').1
  /\ ((match_cidrs client_host ip cidrs).1 = true
      <-> exists cidr net, In cidr cidrs /\ ip_network cidr false = Ok net
                           /\ contains net ip = true)
  /\ ((match_cidrs client_host ip cidrs).1 = true ->
      exists cidr, In cidr cidrs /\ in_range ip cidr = true
        /\ last (match_cidrs client_host ip cidrs).2
           = Some (LogRecord INFO ("Allowing internal request from "
                                     +:+ client_host +:+ " in " +:+ cidr))).
Proof.
  intros Hsame. split; [|split].
  - rewrite !match_cidrs_fst. now apply existsb_same_elements.
  - rewrite match_cidrs_fst, existsb_exists. unfold in_range.
    split.
    + intros (c & Hc & Hr).
      destruct (ip_network c false) as [net|] eqn:Hn; [|discriminate].
      now exists c, net.
    + intros (c & net & Hc & Hn & Hr). exists c. now rewrite Hn.
  - apply match_cidrs_logged.
Qed.

Corollary match_cidrs_permutation (client_host : string) (ip : IPAddress)
  (cidrs cidrs' : list string) :
  Permutation cidrs cidrs' ->
  (match_cidrs client_host ip cidrs).1 = (match_cidrs client_host ip cidrs').1.
Proof.
  intros Hp. rewrite !match_cidrs_fst. apply existsb_same_elements.
  intros c. split; apply Permutation_in; [exact Hp|now symmetry].
Qed.

Corollary match_cidrs_duplicate (client_host : string) (ip : IPAddress)
  (cidr : string) (cidrs : list string) :
  In cidr cidrs ->
  (match_cidrs client_host ip (cidr :: cidrs)).1
  = (match_cidrs client_host ip cidrs).1.
Proof.
  intros Hin. rewrite !match_cidrs_fst. apply existsb_same_elements.
  intros c. cbn [In]. split; [intros [<-|H]; assumption|now right].
Qed.

(** C9. Two requests whose transport-reported peer host is the same,
    under environments that agree on the extension variable, get the
    same answer and the same log, whatever their headers, paths or peer
    ports are. *)
Theorem headers_never_consulted (environ environ' : gmap string string)
  (request request' : Request) :
  host <$> client request = host <$> client request' ->
  environ !! "ALLOWED_INTERNAL_CIDRS" = environ' !! "ALLOWED_INTERNAL_CIDRS" ->
  is_internal_request environ request = is_internal_request environ' request'.
Proof.
  intros Hhost Henv. unfold is_internal_request, _get_allowed_cidrs, os_getenv.
  rewrite Henv.
  destruct (client request) as [a|], (client request') as [a'|];
    try discriminate; [|reflexivity].
  injection Hhost as ->. reflexivity.
Qed.

(** C5. When the allow-set of one environment is that of another with
    one entry added that [ip_network] rejects, both give the same
    answer for every request: the bad entry is stepped over and the
    entries around it are still tried. *)
Theorem malformed_entry_skipped (environ environ' : gmap string string)
  (request : Request) (before after : list string) (bad : string) (e : exc) :
  _get_allowed_cidrs environ = before ++ bad :: after ->
  _get_allowed_cidrs environ' = before ++ after ->
  ip_network bad false = Raise e ->
  (is_internal_request environ request).1
  = (is_internal_request environ' request).1.
Proof.
  intros Hwith Hwithout Hbad. apply is_internal_request_of_allow_set.
  intros ip. rewrite Hwith, Hwithout, !existsb_app. cbn [existsb].
  unfold in_range at 2. now rewrite Hbad.
Qed.

End Classifier.

(** ** The origin classifier over CPython's [ipaddress] *)

Section ClassifierCPython.

Lemma ip_address_rejects_trivial (h : string) (ip : ipaddress.IPAddress) :
  ipaddress.ip_address h = Ok ip ->
  pystr.truthy h = true /\ h <> "localhost".
Proof.
  intros H. split.
  - destruct h; [vm_compute in H; discriminate|reflexivity].
  - intros ->. vm_compute in H. discriminate.
Qed.

Lemma localhost_is_not_an_ip_literal :
  ipaddress.ip_address "localhost" = Raise ValueError.
Proof. vm_compute. reflexivity. Qed.

Lemma _get_allowed_cidrs_baseline (environ : gmap string string) :
  os_getenv environ "ALLOWED_INTERNAL_CIDRS" "" = "" ->
  _get_allowed_cidrs environ = DEFAULT_ALLOWED_CIDRS.
Proof.
  intros H. unfold _get_allowed_cidrs. rewrite H. cbn. reflexivity.
Qed.

Lemma _get_allowed_cidrs_insert (environ : gmap string string) (extra : string) :
  _get_allowed_cidrs (<["ALLOWED_INTERNAL_CIDRS" := extra]> environ)
  = DEFAULT_ALLOWED_CIDRS
    ++ map pystr.strip
         (List.filter (fun c => pystr.truthy (pystr.strip c))
                      (pystr.split "," extra)).
Proof.
  unfold _get_allowed_cidrs, os_getenv. now rewrite lookup_insert_eq.
Qed.

Lemma verdict_of_parsed (environ : gmap string string) (request : Request)
  (a : Address) (ip : ipaddress.IPAddress) :
  client request = Some a -> ipaddress.ip_address (host a) = Ok ip ->
  (is_internal_request environ request).1
  = existsb (@in_range cpython ip) (_get_allowed_cidrs environ).
Proof.
  intros Hc Hip. destruct (ip_address_rejects_trivial _ _ Hip) as [Ht Hl].
  rewrite (is_internal_request_parsed (L := cpython) environ request a ip)
    by assumption.
  apply match_cidrs_fst.
Qed.

Lemma baseline_membership (ip : ipaddress.IPAddress) :
  in_family_range ip ->
  existsb (@in_range cpython ip) DEFAULT_ALLOWED_CIDRS = in_baseline ip.
Proof.
  destruct ip as [x|x scope]; intros Hx.
  - now apply cidr_facts.baseline_v4.
  - now apply cidr_facts.baseline_v6.
Qed.


(** C2. With the extension variable unset or empty, a request whose
    peer host parses to an address is internal exactly when that address
    lies in one of the six baseline ranges. *)
Theorem baseline_decides (environ : gmap string string) (request : Request)
  (a : Address) (ip : ipaddress.IPAddress) :
  os_getenv environ "ALLOWED_INTERNAL_CIDRS" "" = "" ->
  client request = Some a ->
  ipaddress.ip_address (host a) = Ok ip ->
  (is_internal_request environ request).1 = in_baseline ip.
Proof.
  intros Henv Hc Hip.
  rewrite (verdict_of_parsed environ request a ip Hc Hip).
  rewrite (_get_allowed_cidrs_baseline environ Henv).
  apply baseline_membership.
  now apply ipaddress_facts.ip_address_range with (host a).
Qed.

Example baseline_examples :
  (is_internal_request ∅ (request_from "127.0.0.1")).1 = true
  /\ (is_internal_request ∅ (request_from "10.1.2.3")).1 = true
  /\ (is_internal_request ∅ (request_from "172.20.0.5")).1 = true
  /\ (is_internal_request ∅ (request_from "192.168.1.1")).1 = true
  /\ (is_internal_request ∅ (request_from "100.64.0.1")).1 = true
  /\ (is_internal_request ∅ (request_from "::1")).1 = true
  /\ (is_internal_request ∅ (request_from "8.8.8.8")).1 = false
  /\ (is_internal_request ∅ (request_from "172.32.0.1")).1 = false
  /\ (is_internal_request ∅ (request_from "::ffff:10.0.0.1")).1 = false.
Proof. vm_compute. repeat split. Qed.

Lemma in_range_203 (x : Z) :
  0 <= x < 2 ^ 32 ->
  @in_range cpython (ipaddress.IPv4Address x) "203.0.113.0/24"
  = in_cidr 32 (ipv4 203 0 113 0) 24 x.
Proof.
  intros Hx. unfold in_range. cbn [ip_network contains cpython].
  rewrite cidr_facts.net_203.
  now rewrite cidr_facts.contains_v4_in_cidr by cidr_facts.side_cond Hx.
Qed.

(** An entry of the extension variable that [ip_network] rejects can be
    dropped from the variable without changing any answer. *)
Lemma malformed_extension_entry_skipped (environ : gmap string string)
  (request : Request) (left_part bad right_part : string) (e : exc) :
  pystr.contains "," bad = false ->
  ipaddress.ip_network (pystr.strip bad) false = Raise e ->
  (is_internal_request
     (<["ALLOWED_INTERNAL_CIDRS" := left_part +:+ "," +:+ bad +:+ "," +:+ right_part]>
        environ) request).1
  = (is_internal_request
       (<["ALLOWED_INTERNAL_CIDRS" := left_part +:+ "," +:+ right_part]> environ)
       request).1.
Proof.
  intros Hcomma Hbad. apply is_internal_request_of_allow_set. intros ip.
  rewrite !_get_allowed_cidrs_insert.
  change ("," +:+ bad +:+ "," +:+ right_part)
    with (String "," (bad +:+ String "," right_part)).
  change ("," +:+ right_part) with (String "," right_part).
  rewrite !pystr_facts.split_app, (pystr_facts.split_no_sep _ _ Hcomma).
  rewrite !List.filter_app, !List.map_app, !existsb_app.
  cbn [List.filter]. 
  destruct (pystr.truthy (pystr.strip bad)); cbn [map existsb];
    [|reflexivity].
  unfold in_range at 3. cbn [ip_network cpython]. now rewrite Hbad.
Qed.

(** C6. With 203.0.113.0/24 in the extension variable the peer
    203.0.113.5 is internal, which it is not without, and so is every
    peer whose address lies in that range; whatever the extension holds,
    a request that is internal with the variable unset or empty stays
    internal; and with that one range added, the answer changes for no
    peer outside 203.0.113.0/24. *)
Theorem extension_adds_and_keeps :
  (forall environ,
      (is_internal_request (<["ALLOWED_INTERNAL_CIDRS" := "203.0.113.0/24"]> environ)
                           (request_from "203.0.113.5")).1 = true)
  /\ (is_internal_request ∅ (request_from "203.0.113.5")).1 = false
  /\ (forall environ request a x,
         client request = Some a ->
         ipaddress.ip_address (host a) = Ok (ipaddress.IPv4Address x) ->
         in_cidr 32 (ipv4 203 0 113 0) 24 x = true ->
         (is_internal_request (<["ALLOWED_INTERNAL_CIDRS" := "203.0.113.0/24"]> environ)
                              request).1 = true)
  /\ (forall environ extra request,
         os_getenv environ "ALLOWED_INTERNAL_CIDRS" "" = "" ->
         (is_internal_request environ request).1 = true ->
         (is_internal_request (<["ALLOWED_INTERNAL_CIDRS" := extra]> environ)
                              request).1 = true)
  /\ (forall environ request,
         os_getenv environ "ALLOWED_INTERNAL_CIDRS" "" = "" ->
         (forall a x, client request = Some a ->
                      ipaddress.ip_address (host a) = Ok (ipaddress.IPv4Address x) ->
                      in_cidr 32 (ipv4 203 0 113 0) 24 x = false) ->
         (is_internal_request (<["ALLOWED_INTERNAL_CIDRS" := "203.0.113.0/24"]> environ)
                              request).1
         = (is_internal_request environ request).1).
Proof.
  split; [|split; [|split; [|split]]].
  - intros environ.
    rewrite (verdict_of_parsed _ (request_from "203.0.113.5")
               {| host := "203.0.113.5"; port := 0 |}
               (ipaddress.IPv4Address (ipv4 203 0 113 5)))
      by (vm_compute; reflexivity).
    rewrite _get_allowed_cidrs_insert. vm_compute. reflexivity.
  - vm_compute. reflexivity.
  - intros environ request a x Hc Hip Hin.
    rewrite (verdict_of_parsed _ request a _ Hc Hip).
    rewrite _get_allowed_cidrs_insert, existsb_app.
    change (map pystr.strip
              (List.filter (fun c => pystr.truthy (pystr.strip c))
                           (pystr.split "," "203.0.113.0/24")))
      with ["203.0.113.0/24"].
    cbn [existsb].
    rewrite in_range_203, Hin by exact (ipaddress_facts.ip_address_range _ _ Hip).
    now rewrite orb_true_r.
  - intros environ extra request Henv.
    unfold is_internal_request.
    destruct (client request) as [a|]; [|discriminate].
    destruct (negb (pystr.truthy (host a))); [discriminate|].
    destruct (String.eqb (host a) "localhost"); [reflexivity|].
    destruct (ip_address (host a)) as [ip|e]; [|discriminate].
    rewrite !match_cidrs_fst, _get_allowed_cidrs_insert.
    rewrite (_get_allowed_cidrs_baseline environ Henv), existsb_app.
    now intros ->.
  - intros environ request Henv Hout.
    unfold is_internal_request.
    destruct (client request) as [a|] eqn:Hc; [|reflexivity].
    destruct (negb (pystr.truthy (host a))); [reflexivity|].
    destruct (String.eqb (host a) "localhost"); [reflexivity|].
    destruct (ip_address (host a)) as [ip|e] eqn:Hip; [|reflexivity].
    rewrite !match_cidrs_fst, _get_allowed_cidrs_insert.
    rewrite (_get_allowed_cidrs_baseline environ Henv), existsb_app.
    change (map pystr.strip
              (List.filter (fun c => pystr.truthy (pystr.strip c))
                           (pystr.split "," "203.0.113.0/24")))
      with ["203.0.113.0/24"].
    cbn [existsb]. rewrite orb_false_r.
    assert (Hno : @in_range cpython ip "203.0.113.0/24" = false);
      [|now rewrite Hno, orb_false_r].
    pose proof (ipaddress_facts.ip_address_range _ _ Hip) as Hr.
    destruct ip as [x|x scope].
    + rewrite in_range_203 by exact Hr. now apply (Hout a).
    + unfold in_range. cbn [ip_network contains cpython].
      now rewrite cidr_facts.net_203.
Qed.

End ClassifierCPython.

(** ** The credential endpoints, for any credential service *)

Section Broker.
Context {St E : Type}.
Variable get_credential : string -> option string -> option bool -> @svc St E pyval.
Variable exc_str : E -> string.

Ltac await_next H :=
  match type of H with
  | context [get_credential ?k ?d ?c ?s] =>
      let v := fresh "v" in
      let e := fresh "e" in
      let s' := fresh "s" in
      let Hcall := fresh "Hcall" in
      destruct (get_credential k d c s) as [[v|e] s'] eqn:Hcall;
      cbn beta iota in H
  end.

(** A dict the agents handler builds holds, under every key of the
    profile, the value one of the handler's awaits returned for it. *)
Lemma agent_credentials_dict_lookup (environ : gmap string string)
  (s s' : St) (credentials : gmap string pyval) :
  agent_credentials_dict get_credential environ s = (Returns credentials, s') ->
  forall key default decrypt,
    In (key, default, decrypt) agents_calls ->
    exists st st' v,
      get_credential key default decrypt st = (Returns v, st')
      /\ credentials !! key = Some v.
Proof.
  unfold agent_credentials_dict, bind, ret. intros H.
  repeat (await_next H; [|discriminate H]).
  injection H as <- <-.
  intros key default decrypt Hin. cbn [In agents_calls] in Hin.
  repeat (destruct Hin as [[= <- <- <-]|Hin];
          [eexists _, _, _; split; [eassumption|by simplify_map_eq]|]).
  destruct Hin.
Qed.

Lemma agent_credentials_dict_raises (environ : gmap string string) (s : St) :
  store_raises get_credential agents_calls s = true ->
  exists e s', agent_credentials_dict get_credential environ s = (Raises e, s').
Proof.
  unfold agent_credentials_dict, bind, ret, agents_calls. cbn [store_raises].
  intros H.
  repeat (await_next H; [|eexists _, _; reflexivity]).
  discriminate H.
Qed.

Lemma mcp_credentials_dict_raises (s : St) :
  store_raises get_credential mcp_calls s = true ->
  exists e s', mcp_credentials_dict get_credential s = (Raises e, s').
Proof.
  unfold mcp_credentials_dict, bind, ret, mcp_calls. cbn [store_raises].
  intros H.
  repeat (await_next H; [|eexists _, _; reflexivity]).
  discriminate H.
Qed.

(** C3. For a request that passed the origin check, if any await of the
    profile's list raises, the handler raises HTTPException with status
    500 and returns no body; this holds for the agents and for the MCP
    endpoint. *)
Theorem store_failure_is_server_error (environ : gmap string string)
  (request : Request) (s : St) :
  (is_internal_request environ request).1 = true ->
  (store_raises get_credential agents_calls s = true ->
   (get_agent_credentials get_credential exc_str environ request s).1.1
   = HTTPException 500 "Failed to retrieve credentials")
  /\ (store_raises get_credential mcp_calls s = true ->
      (get_mcp_credentials get_credential exc_str environ request s).1.1
      = HTTPException 500 "Failed to retrieve credentials").
Proof.
  intros Hin. split; intros Hraise.
  - unfold get_agent_credentials.
    destruct (is_internal_request environ request) as [internal logs].
    cbn [fst] in Hin. subst internal. cbn [negb].
    destruct (agent_credentials_dict_raises environ s Hraise) as (e & s' & ->).
    reflexivity.
  - unfold get_mcp_credentials.
    destruct (is_internal_request environ request) as [internal logs].
    cbn [fst] in Hin. subst internal. cbn [negb].
    destruct (mcp_credentials_dict_raises s Hraise) as (e & s' & ->).
    reflexivity.
Qed.

Lemma filter_none_lookup (credentials : gmap string pyval) (key : string) :
  filter_none credentials !! key
  = match credentials !! key with
    | Some (Some v) => Some (Some v)
    | _ => None
    end.
Proof.
  unfold filter_none.
  destruct (credentials !! key) as [[v|]|] eqn:Hk.
  - apply map_lookup_filter_Some. split; [exact Hk|discriminate].
  - apply map_lookup_filter_None. right. intros x Hx.
    rewrite Hk in Hx. injection Hx as <-. cbn. congruence.
  - apply map_lookup_filter_None. now left.
Qed.

Lemma get_agent_credentials_returns (environ : gmap string string)
  (request : Request) (s : St) (body : gmap string pyval) :
  (get_agent_credentials get_credential exc_str environ request s).1.1
  = Return body ->
  exists credentials s',
    agent_credentials_dict get_credential environ s = (Returns credentials, s')
    /\ body = filter_none credentials.
Proof.
  unfold get_agent_credentials, forbidden.
  destruct (is_internal_request environ request) as [internal logs0].
  destruct internal; cbn [negb].
  - destruct (agent_credentials_dict get_credential environ s)
      as [[credentials|e] s1] eqn:Hd.
    + destruct (client request); cbn [fst]; intros [= <-].
      exists credentials, s1. now split.
    + discriminate.
  - destruct (client request); discriminate.
Qed.

Lemma get_mcp_credentials_internal (environ : gmap string string)
  (request : Request) (s : St) :
  (is_internal_request environ request).1 = true ->
  (get_mcp_credentials get_credential exc_str environ request s).1.1
  = match get_credential "LOG_LEVEL" (Some "INFO") None s with
    | (Returns v, _) => Return {[ "LOG_LEVEL" := v ]}
    | (Raises _, _) => HTTPException 500 "Failed to retrieve credentials"
    end.
Proof.
  intros Hin. unfold get_mcp_credentials, mcp_credentials_dict, bind, ret.
  destruct (is_internal_request environ request) as [internal logs] eqn:Hreq.
  cbn [fst] in Hin. subst internal. cbn [negb].
  destruct (get_credential "LOG_LEVEL" (Some "INFO") None s) as [[v|e] s'];
    [|reflexivity].
  rewrite insert_empty.
  destruct (client request) as [a|] eqn:Hc; [reflexivity|].
  unfold is_internal_request in Hreq. rewrite Hc in Hreq. discriminate.
Qed.

End Broker.

(** ** The credential endpoints over the specified credential service *)

Section SpecifiedService.
Context {St E : Type}.
Variable store_get : string -> bool -> St -> store_reply E * St.
Variable decrypt_default : bool.
Variable exc_str : E -> string.

Lemma get_credential_no_value (key : string) (default : option string)
  (decrypt : option bool) (st st' : St) (v : pyval) :
  (forall d s, (store_get key d s).1 = NoValue) ->
  get_credential store_get decrypt_default key default decrypt st
  = (Returns v, st') ->
  v = default.
Proof.
  intros Hnone. unfold get_credential.
  match goal with
  | |- context [store_get key ?d st] =>
      specialize (Hnone d st); destruct (store_get key d st) as [r s1]
  end.
  cbn [fst] in Hnone. subst r. now intros [= <- <-].
Qed.

(** C4. In a body the agents handler returns, a key of the profile
    for which the store has no value is bound to its default when it has
    one and is missing from the body when it has none; no key of the
    body is bound to [None]. The MCP handler binds LOG_LEVEL to its
    default in the same situation. *)
Theorem no_value_gives_default_or_nothing (environ : gmap string string)
  (request : Request) (s : St) (body : gmap string pyval)
  (key : string) (default : option string) (decrypt : option bool) :
  (forall d st, (store_get key d st).1 = NoValue) ->
  ((get_agent_credentials (get_credential store_get decrypt_default)
                          exc_str environ request s).1.1 = Return body ->
   In (key, default, decrypt) agents_calls ->
   body !! key = match default with
                 | Some d => Some (Some d)
                 | None => None
                 end
   /\ forall k, body !! k <> Some None)
  /\ ((get_mcp_credentials (get_credential store_get decrypt_default)
                           exc_str environ request s).1.1 = Return body ->
      In (key, default, decrypt) mcp_calls ->
      body !! key = match default with
                    | Some d => Some (Some d)
                    | None => None
                    end).
Proof.
  intros Hnone. split.
  - intros Hret Hin.
    apply get_agent_credentials_returns in Hret as (credentials & s' & Hd & ->).
    split.
    + destruct (agent_credentials_dict_lookup _ _ _ _ _ Hd _ _ _ Hin)
        as (st & st' & v & Hcall & Hk).
      apply (get_credential_no_value _ _ _ _ _ _ Hnone) in Hcall. subst v.
      rewrite filter_none_lookup, Hk. now destruct default.
    + intros k. rewrite filter_none_lookup.
      now destruct (credentials !! k) as [[v|]|].
  - intros Hret Hin. destruct Hin as [[= <- <- <-]|[]].
    unfold get_mcp_credentials, forbidden in Hret.
    destruct (is_internal_request environ request) as [internal logs].
    destruct internal; cbn [negb] in Hret;
      [|destruct (client request); discriminate].
    unfold mcp_credentials_dict, bind, ret in Hret.
    destruct (get_credential store_get decrypt_default "LOG_LEVEL"
                             (Some "INFO") None s) as [[v|e] s'] eqn:Hcall;
      [|discriminate].
    apply (get_credential_no_value _ _ _ _ _ _ Hnone) in Hcall. subst v.
    destruct (client request); cbn [fst] in Hret; [|discriminate].
    injection Hret as <-. by simplify_map_eq.
Qed.

End SpecifiedService.

(** C10. The MCP handler returns its dict as built: for a request that
    passed the origin check, the body is the one-key map from LOG_LEVEL to
    whatever the await returned, [None] included. Over the specified
    service that value is the store's value, or INFO when the store has
    none. Against a service that answers [None] to every call, the MCP
    body binds LOG_LEVEL to [None] while the agents body has no LOG_LEVEL
    key. *)
Theorem mcp_bundle_is_unfiltered :
  (forall (St E : Type)
          (get_credential : string -> option string -> option bool -> @svc St E pyval)
          (exc_str : E -> string) (environ : gmap string string)
          (request : Request) (s s' : St) (v : pyval),
      (is_internal_request environ request).1 = true ->
      get_credential "LOG_LEVEL" (Some "INFO") None s = (Returns v, s') ->
      (get_mcp_credentials get_credential exc_str environ request s).1.1
      = Return {[ "LOG_LEVEL" := v ]})
  /\ (forall (St E : Type)
             (store_get : string -> bool -> St -> store_reply E * St)
             (decrypt_default : bool) (exc_str : E -> string)
             (environ : gmap string string) (request : Request) (s : St),
         (is_internal_request environ request).1 = true ->
         (get_mcp_credentials (get_credential store_get decrypt_default)
                              exc_str environ request s).1.1
         = match (store_get "LOG_LEVEL" decrypt_default s).1 with
           | Found v => Return {[ "LOG_LEVEL" := Some v ]}
           | NoValue => Return {[ "LOG_LEVEL" := Some "INFO" ]}
           | Failed _ => HTTPException 500 "Failed to retrieve credentials"
           end)
  /\ (let answer_none : string -> option string -> option bool
                        -> @svc unit Empty_set pyval :=
        fun _ _ _ s => (Returns None, s) in
      let exc_str : Empty_set -> string := fun _ => "" in
      (get_mcp_credentials answer_none exc_str ∅ (request_from "127.0.0.1") tt).1.1
      = Return {[ "LOG_LEVEL" := None ]}
      /\ exists body,
          (get_agent_credentials answer_none exc_str ∅
                                 (request_from "127.0.0.1") tt).1.1
          = Return body
          /\ body !! "LOG_LEVEL" = None).
Proof.
  split; [|split].
  - intros St E get_credential exc_str environ request s s' v Hin Hcall.
    rewrite get_mcp_credentials_internal by exact Hin. now rewrite Hcall.
  - intros St E store_get decrypt_default exc_str environ request s Hin.
    rewrite get_mcp_credentials_internal by exact Hin.
    unfold get_credential.
    now destruct (store_get "LOG_LEVEL" decrypt_default s) as [[v| |e] s'].
  - cbv zeta. split.
    + rewrite get_mcp_credentials_internal by (vm_compute; reflexivity).
      reflexivity.
    + eexists. split; [reflexivity|].
      rewrite filter_none_lookup. by simplify_map_eq.
Qed.

(** ** The theorems at concrete requests *)

Lemma fail_closed_witness :
  (exists e, ipaddress.ip_address "example.com" = Raise e)
  /\ (is_internal_request ∅ (request_from "example.com")).1 = false
  /\ (is_internal_request ∅ (request_from "")).1 = false
  /\ (is_internal_request ∅ {| client := None; headers := []; url_path := "" |}).1
     = false.
Proof.
  split; [eexists; vm_compute; reflexivity|]. split; [|split].
  - apply fail_closed. right. exists {| host := "example.com"; port := 0 |}.
    split; [reflexivity|]. right. split; [discriminate|].
    eexists. vm_compute. reflexivity.
  - apply fail_closed. right. exists {| host := ""; port := 0 |}.
    split; [reflexivity|]. now left.
  - apply fail_closed. now left.
Defined.

Lemma baseline_decides_witness :
  (is_internal_request ∅ (request_from "10.1.2.3")).1
  = in_baseline (ipaddress.IPv4Address (ipv4 10 1 2 3))
  /\ (is_internal_request ∅ (request_from "8.8.8.8")).1
     = in_baseline (ipaddress.IPv4Address (ipv4 8 8 8 8)).
Proof.
  split.
  - apply (baseline_decides ∅ (request_from "10.1.2.3")
             {| host := "10.1.2.3"; port := 0 |});
      [reflexivity | reflexivity | vm_compute; reflexivity].
  - apply (baseline_decides ∅ (request_from "8.8.8.8")
             {| host := "8.8.8.8"; port := 0 |});
      [reflexivity | reflexivity | vm_compute; reflexivity].
Defined.

Lemma store_failure_is_server_error_witness :
  let failing : string -> option string -> option bool -> @svc unit unit pyval :=
    fun key _ _ s =>
      if String.eqb key "RAG_AGENT_MODEL" then (Raises tt, s)
      else (Returns (Some "value"), s) in
  (get_agent_credentials failing (fun _ => "store unavailable") ∅
                         (request_from "10.1.2.3") tt).1.1
  = HTTPException 500 "Failed to retrieve credentials".
Proof.
  cbv zeta.
  apply (proj1 (store_failure_is_server_error _ _ ∅ (request_from "10.1.2.3") tt
                  ltac:(vm_compute; reflexivity))).
  vm_compute. reflexivity.
Defined.

Lemma no_value_gives_default_or_nothing_witness :
  let empty_store : string -> bool -> unit -> store_reply unit * unit :=
    fun _ _ s => (NoValue, s) in
  exists body,
    (get_agent_credentials (get_credential empty_store false) (fun _ => "") ∅
                           (request_from "127.0.0.1") tt).1.1 = Return body
    /\ body !! "AGENT_MAX_RETRIES" = Some (Some "3")
    /\ body !! "OPENAI_API_KEY" = None.
Proof.
  cbv zeta. eexists. split; [reflexivity|]. split.
  - apply (proj1 (@no_value_gives_default_or_nothing unit unit
                    (fun _ _ s => (NoValue, s)) false (fun _ => "") ∅
                    (request_from "127.0.0.1") tt _
                    "AGENT_MAX_RETRIES" (Some "3") None
                    (fun _ _ => eq_refl))); [reflexivity|].
    cbn. tauto.
  - apply (proj1 (@no_value_gives_default_or_nothing unit unit
                    (fun _ _ s => (NoValue, s)) false (fun _ => "") ∅
                    (request_from "127.0.0.1") tt _
                    "OPENAI_API_KEY" None (Some true)
                    (fun _ _ => eq_refl))); [reflexivity|].
    cbn. tauto.
Defined.

Lemma malformed_entry_skipped_witness :
  ipaddress.ip_network "not-a-cidr" false = Raise ValueError
  /\ (is_internal_request
        {[ "ALLOWED_INTERNAL_CIDRS" := "not-a-cidr,203.0.113.0/24" ]}
        (request_from "203.0.113.5")).1
     = (is_internal_request
          {[ "ALLOWED_INTERNAL_CIDRS" := "203.0.113.0/24" ]}
          (request_from "203.0.113.5")).1.
Proof.
  split; [vm_compute; reflexivity|].
  apply (malformed_entry_skipped _ _ _ DEFAULT_ALLOWED_CIDRS
           ["203.0.113.0/24"] "not-a-cidr" ValueError);
    vm_compute; reflexivity.
Defined.

Lemma localhost_is_internal_witness :
  is_internal_request ∅ (request_from "localhost") = (true, []).
Proof.
  apply (localhost_is_internal ∅ (request_from "localhost")
           {| host := "localhost"; port := 0 |}); reflexivity.
Defined.

Lemma verdict_independent_of_order_witness :
  let ip : @IPAddress cpython := ipaddress.IPv4Address (ipv4 192 168 1 1) in
  (match_cidrs "192.168.1.1" ip ["10.0.0.0/8"; "bad"; "192.168.0.0/16"]).1
  = (match_cidrs "192.168.1.1" ip
       ["192.168.0.0/16"; "10.0.0.0/8"; "bad"; "10.0.0.0/8"]).1.
Proof.
  cbv zeta.
  refine (proj1 (verdict_independent_of_order "192.168.1.1"
                   (ipaddress.IPv4Address (ipv4 192 168 1 1) : @IPAddress cpython)
                   ["10.0.0.0/8"; "bad"; "192.168.0.0/16"]
                   ["192.168.0.0/16"; "10.0.0.0/8"; "bad"; "10.0.0.0/8"] _)).
  intros c. cbn. tauto.
Defined.

Lemma headers_never_consulted_witness :
  is_internal_request ∅
    {| client := Some {| host := "8.8.8.8"; port := 40000 |};
       headers := [("x-forwarded-for", "127.0.0.1")];
       url_path := "/internal/credentials/agents" |}
  = is_internal_request ∅
      {| client := Some {| host := "8.8.8.8"; port := 40001 |};
         headers := [];
         url_path := "/internal/credentials/mcp" |}.
Proof.
  apply headers_never_consulted; reflexivity.
Defined.

Lemma extension_adds_and_keeps_witness :
  (is_internal_request {[ "ALLOWED_INTERNAL_CIDRS" := "203.0.113.0/24" ]}
                       (request_from "203.0.113.5")).1 = true
  /\ (is_internal_request {[ "ALLOWED_INTERNAL_CIDRS" := "203.0.113.0/24" ]}
                          (request_from "10.1.2.3")).1 = true
  /\ (is_internal_request {[ "ALLOWED_INTERNAL_CIDRS" := "203.0.113.0/24" ]}
                          (request_from "8.8.8.8")).1
     = (is_internal_request ∅ (request_from "8.8.8.8")).1.
Proof.
  destruct extension_adds_and_keeps as (Hadd & _ & _ & Hmono & Hother).
  split; [|split].
  - apply (Hadd ∅).
  - apply (Hmono ∅ "203.0.113.0/24" (request_from "10.1.2.3"));
      vm_compute; reflexivity.
  - apply (Hother ∅ (request_from "8.8.8.8")); [reflexivity|].
    intros a x [= <-]. cbn [host]. intros Hx.
    vm_compute in Hx. injection Hx as <-. vm_compute. reflexivity.
Defined.

Lemma mcp_bundle_is_unfiltered_witness :
  let answer : string -> option string -> option bool -> @svc unit Empty_set pyval :=
    fun _ _ _ s => (Returns (Some "DEBUG"), s) in
  (get_mcp_credentials answer (fun _ => "") ∅ (request_from "127.0.0.1") tt).1.1
  = Return {[ "LOG_LEVEL" := Some "DEBUG" ]}.
Proof.
  cbv zeta.
  apply (proj1 mcp_bundle_is_unfiltered unit Empty_set _ _ ∅
           (request_from "127.0.0.1") tt tt (Some "DEBUG"));
    [vm_compute; reflexivity | reflexivity].
Defined.

(** * Further properties *)

(** ** White space, commas and joins *)

Module strip_facts.

Lemma join_cons_char (sep c : ascii) (h : string) (t : list string) :
  join sep (String c h :: t) = String c (join sep (h :: t)).
Proof. destruct t; reflexivity. Qed.

Lemma split_parts_no_sep (sep : ascii) (s p : string) :
  In p (pystr.split sep s) -> pystr.contains sep p = false.
Proof.
  revert p. induction s as [|c s IH]; intros p; cbn [pystr.split].
  - now intros [<-|[]].
  - destruct (Ascii.eqb c sep) eqn:Hc.
    + intros [<-|Hin]; [reflexivity|now apply IH].
    + destruct (pystr_facts.split_nonempty sep s) as (h & t & Hs).
      rewrite Hs in IH |- *. intros [<-|Hin].
      * cbn [pystr.contains]. rewrite Hc. apply IH. now left.
      * apply IH. now right.
Qed.

Lemma lstrip_head (s : string) :
  match pystr.lstrip s with
  | EmptyString => True
  | String c _ => pystr.isspace c = false
  end.
Proof.
  induction s as [|c s IH]; cbn [pystr.lstrip]; [exact I|].
  destruct (pystr.isspace c) eqn:Hc; [exact IH|exact Hc].
Qed.

Lemma rstrip_keeps_head (c : ascii) (s : string) :
  pystr.isspace c = false ->
  exists r, pystr.rstrip (String c s) = String c r.
Proof.
  intros Hc. cbn [pystr.rstrip].
  destruct (pystr.rstrip s); [rewrite Hc|]; now eexists.
Qed.

Lemma rstrip_idempotent (s : string) :
  pystr.rstrip (pystr.rstrip s) = pystr.rstrip s.
Proof.
  induction s as [|c s IH]; [reflexivity|].
  cbn [pystr.rstrip].
  destruct (pystr.rstrip s) as [|d r] eqn:Hr.
  - destruct (pystr.isspace c) eqn:Hc; [reflexivity|].
    cbn [pystr.rstrip]. now rewrite Hc.
  - cbn [pystr.rstrip]. cbn [pystr.rstrip] in IH.
    destruct (pystr.rstrip r) as [|d' r'] eqn:Hr'.
    + destruct (pystr.isspace d); [discriminate|]. now injection IH as ->.
    + now rewrite IH.
Qed.

Lemma strip_idempotent (s : string) :
  pystr.strip (pystr.strip s) = pystr.strip s.
Proof.
  unfold pystr.strip.
  pose proof (lstrip_head s) as Hh.
  destruct (pystr.lstrip s) as [|c t]; [reflexivity|].
  destruct (rstrip_keeps_head c t Hh) as (r & Hr).
  rewrite Hr. cbn [pystr.lstrip]. rewrite Hh, <- Hr.
  apply rstrip_idempotent.
Qed.

Lemma lstrip_contains (c : ascii) (s : string) :
  pystr.contains c (pystr.lstrip s) = true -> pystr.contains c s = true.
Proof.
  induction s as [|d s IH]; cbn [pystr.lstrip pystr.contains]; [easy|].
  destruct (pystr.isspace d); [|easy].
  intros H. rewrite (IH H). apply orb_true_r.
Qed.

Lemma rstrip_contains (c : ascii) (s : string) :
  pystr.contains c (pystr.rstrip s) = true -> pystr.contains c s = true.
Proof.
  induction s as [|d s IH]; cbn [pystr.rstrip pystr.contains]; [easy|].
  destruct (pystr.rstrip s) as [|e r].
  - destruct (pystr.isspace d); cbn [pystr.contains]; [easy|].
    rewrite orb_false_r. now intros ->.
  - cbn [pystr.contains] in *. intros H.
    apply orb_prop in H as [->|H]; [reflexivity|].
    rewrite (IH H). apply orb_true_r.
Qed.

Lemma strip_contains (c : ascii) (s : string) :
  pystr.contains c (pystr.strip s) = true -> pystr.contains c s = true.
Proof.
  unfold pystr.strip. intros H. now apply lstrip_contains, rstrip_contains.
Qed.

Lemma split_join (sep : ascii) (parts : list string) :
  parts <> [] ->
  Forall (fun p => pystr.contains sep p = false) parts ->
  pystr.split sep (join sep parts) = parts.
Proof.
  induction parts as [|p rest IH]; [easy|]. intros _ Hall.
  apply Forall_cons_1 in Hall as [Hp Hrest].
  destruct rest as [|q rest].
  - now apply pystr_facts.split_no_sep.
  - change (join sep (p :: q :: rest)) with (p +:+ String sep (join sep (q :: rest))).
    rewrite pystr_facts.split_app, (pystr_facts.split_no_sep _ _ Hp).
    now rewrite IH.
Qed.

Lemma join_split (sep : ascii) (s : string) :
  join sep (pystr.split sep s) = s.
Proof.
  induction s as [|c s IH]; [reflexivity|].
  cbn [pystr.split]. destruct (Ascii.eqb c sep) eqn:Hc.
  - apply Ascii.eqb_eq in Hc as ->.
    destruct (pystr_facts.split_nonempty sep s) as (h & t & Hs).
    rewrite Hs in IH |- *.
    change (join sep (EmptyString :: h :: t)) with (String sep (join sep (h :: t))).
    now rewrite IH.
  - destruct (pystr_facts.split_nonempty sep s) as (h & t & Hs).
    rewrite Hs in IH |- *. now rewrite join_cons_char, IH.
Qed.

End strip_facts.

(** ** How [ip_network] takes an entry apart *)

Module entry_facts.
Import ipaddress.

Lemma _split_addr_prefix_bare (w : Z) (h : string) :
  pystr.contains "/" h = false ->
  _split_addr_prefix w h = Ok (h, MaskInt w).
Proof.
  intros Hh. unfold _split_addr_prefix, _split_optional_netmask.
  now rewrite (pystr_facts.split_no_sep _ _ Hh).
Qed.




Lemma IPv4Address_init_no_slash (a : string) (x : Z) :
  IPv4Address_init a = Ok x -> pystr.contains "/" a = false.
Proof.
  unfold IPv4Address_init. now destruct (pystr.contains "/" a).
Qed.

Lemma IPv6Address_init_no_slash (a : string) (r : Z * option string) :
  IPv6Address_init a = Ok r -> pystr.contains "/" a = false.
Proof.
  unfold IPv6Address_init. now destruct (pystr.contains "/" a).
Qed.

Lemma IPv4Network_init_parts (address addr : string) (mask : mask_arg)
  (x m n : Z) :
  _split_addr_prefix IPV4LENGTH address = Ok (addr, mask) ->
  IPv4Address_init addr = Ok x ->
  v4_make_netmask mask = Ok (m, n) ->
  IPv4Network_init address false = Ok (IPv4Network (Z.land x m) m n).
Proof.
  intros Hs Ha Hm. unfold IPv4Network_init.
  rewrite Hs. cbn [rbind]. rewrite Ha. cbn [rbind]. rewrite Hm. cbn [rbind].
  destruct (Z.land x m =? x) eqn:Hal; cbn [negb]; [|reflexivity].
  apply Z.eqb_eq in Hal. now rewrite Hal.
Qed.

Lemma IPv4Network_init_bad_address (address addr : string) (mask : mask_arg)
  (e : exc) :
  _split_addr_prefix IPV4LENGTH address = Ok (addr, mask) ->
  IPv4Address_init addr = Raise e ->
  IPv4Network_init address false = Raise e.
Proof.
  intros Hs Ha. unfold IPv4Network_init.
  rewrite Hs. cbn [rbind]. now rewrite Ha.
Qed.

Lemma IPv6Network_init_parts (address addr : string) (mask : mask_arg)
  (x m n : Z) (scope : option string) :
  _split_addr_prefix IPV6LENGTH address = Ok (addr, mask) ->
  IPv6Address_init addr = Ok (x, scope) ->
  v6_make_netmask mask = Ok (m, n) ->
  IPv6Network_init address false = Ok (IPv6Network (Z.land x m) m n).
Proof.
  intros Hs Ha Hm. unfold IPv6Network_init.
  rewrite Hs. cbn [rbind]. rewrite Ha. cbn [rbind]. rewrite Hm. cbn [rbind].
  destruct (Z.land x m =? x) eqn:Hal; cbn [negb]; [|reflexivity].
  apply Z.eqb_eq in Hal. now rewrite Hal.
Qed.

(** What [ip_address] tells about the two constructors it tries. *)
Lemma ip_address_v4 (a : string) (x : Z) :
  ip_address a = Ok (IPv4Address x) -> IPv4Address_init a = Ok x.
Proof.
  unfold ip_address. destruct (IPv4Address_init a) as [i|e].
  - now intros [= ->].
  - destruct (IPv6Address_init a) as [[i sc]|e']; destruct e; try discriminate;
      destruct e'; discriminate.
Qed.

Lemma ip_address_v6 (a : string) (x : Z) (scope : option string) :
  ip_address a = Ok (IPv6Address x scope) ->
  (exists e, IPv4Address_init a = Raise e /\ e <> ValueError)
  /\ IPv6Address_init a = Ok (x, scope).
Proof.
  unfold ip_address. destruct (IPv4Address_init a) as [i|e]; [discriminate|].
  destruct (IPv6Address_init a) as [[i sc]|e'].
  - destruct e; try discriminate; intros [= -> ->];
      (split; [eexists; split; [reflexivity|discriminate]|reflexivity]).
  - destruct e, e'; discriminate.
Qed.

(** The network [ip_network] builds from address text, a mask argument
    and the parts they parse to. *)
Lemma ip_network_v4_parts (address addr : string) (mask : mask_arg)
  (x m n : Z) :
  _split_addr_prefix IPV4LENGTH address = Ok (addr, mask) ->
  IPv4Address_init addr = Ok x ->
  v4_make_netmask mask = Ok (m, n) ->
  ip_network address false = Ok (IPv4Network (Z.land x m) m n).
Proof.
  intros Hs Ha Hm. unfold ip_network.
  now rewrite (IPv4Network_init_parts _ _ _ _ _ _ Hs Ha Hm).
Qed.

Lemma ip_network_v6_parts (address addr : string) (mask4 mask : mask_arg)
  (x m n : Z) (scope : option string) (e : exc) :
  _split_addr_prefix IPV4LENGTH address = Ok (addr, mask4) ->
  IPv4Address_init addr = Raise e -> e <> ValueError ->
  _split_addr_prefix IPV6LENGTH address = Ok (addr, mask) ->
  IPv6Address_init addr = Ok (x, scope) ->
  v6_make_netmask mask = Ok (m, n) ->
  ip_network address false = Ok (IPv6Network (Z.land x m) m n).
Proof.
  intros Hs4 Ha4 He Hs Ha Hm. unfold ip_network.
  rewrite (IPv4Network_init_bad_address _ _ _ _ Hs4 Ha4).
  rewrite (IPv6Network_init_parts _ _ _ _ _ _ _ Hs Ha Hm).
  now destruct e.
Qed.

Lemma in_cidr_full_width (w x y : Z) : in_cidr w x w y = (x =? y).
Proof.
  unfold in_cidr. rewrite Z.sub_diag. cbn [Z.pow]. rewrite !Z.div_1_r.
  apply Z.eqb_sym.
Qed.

End entry_facts.

(** ** The allow-set read from the environment *)

(** X1. Whatever the environment holds, the allow-set is the baseline
    followed by the extension entries, and every extension entry is
    non-empty, holds no comma and has no white space at either end. *)
Theorem extension_entries_are_clean (environ : gmap string string) :
  exists extension,
    _get_allowed_cidrs environ = DEFAULT_ALLOWED_CIDRS ++ extension
    /\ Forall (fun c => pystr.truthy c = true
                        /\ pystr.contains "," c = false
                        /\ pystr.strip c = c) extension.
Proof.
  unfold _get_allowed_cidrs. eexists. split; [reflexivity|].
  apply List.Forall_forall. intros c Hc.
  apply in_map_iff in Hc as (p & <- & Hp).
  apply filter_In in Hp as [Hp Ht].
  split; [exact Ht|]. split; [|apply strip_facts.strip_idempotent].
  apply strip_facts.split_parts_no_sep in Hp.
  destruct (pystr.contains "," (pystr.strip p)) eqn:Hs; [|reflexivity].
  apply strip_facts.strip_contains in Hs. congruence.
Qed.

Lemma clean_entries_survive (entries : list string) :
  Forall (fun c => pystr.truthy c = true /\ pystr.contains "," c = false
                   /\ pystr.strip c = c) entries ->
  map pystr.strip
      (List.filter (fun c => pystr.truthy (pystr.strip c)) entries) = entries.
Proof.
  induction 1 as [|c entries (Ht & _ & Hs) _ IH]; [reflexivity|].
  cbn [List.filter]. rewrite Hs, Ht. cbn [map]. now rewrite Hs, IH.
Qed.

(** X2. A list of entries that are non-empty, comma-free and trimmed,
    written to the extension variable joined by commas, is read back as
    exactly the baseline followed by those entries, in order. *)
Theorem extension_read_back (environ : gmap string string)
  (entries : list string) :
  Forall (fun c => pystr.truthy c = true /\ pystr.contains "," c = false
                   /\ pystr.strip c = c) entries ->
  _get_allowed_cidrs (<["ALLOWED_INTERNAL_CIDRS" := join "," entries]> environ)
  = DEFAULT_ALLOWED_CIDRS ++ entries.
Proof.
  intros Hclean. rewrite _get_allowed_cidrs_insert. f_equal.
  destruct entries as [|c entries]; [reflexivity|].
  rewrite strip_facts.split_join; [now apply clean_entries_survive|easy|].
  eapply List.Forall_impl; [|exact Hclean]. now intros p (_ & Hp & _).
Qed.

(** ** Who is internal *)


(** X4. No value of the extension variable takes the baseline away: a
    peer whose address lies in a baseline range is internal under every
    environment. *)
Theorem baseline_cannot_be_disabled (environ : gmap string string)
  (request : Request) (a : Address) (ip : ipaddress.IPAddress) :
  client request = Some a ->
  ipaddress.ip_address (host a) = Ok ip ->
  in_baseline ip = true ->
  (is_internal_request environ request).1 = true.
Proof.
  intros Hc Hip Hb. rewrite (verdict_of_parsed environ request a ip Hc Hip).
  unfold _get_allowed_cidrs. rewrite existsb_app.
  rewrite baseline_membership, Hb by eauto using ipaddress_facts.ip_address_range.
  reflexivity.
Qed.

(** X5. Appending text after a comma to the extension variable never
    turns an internal request into a denied one. *)
Theorem appending_entries_keeps_trust (environ : gmap string string)
  (value more : string) (request : Request) :
  (is_internal_request (<["ALLOWED_INTERNAL_CIDRS" := value]> environ)
                       request).1 = true ->
  (is_internal_request
     (<["ALLOWED_INTERNAL_CIDRS" := value +:+ "," +:+ more]> environ)
     request).1 = true.
Proof.
  unfold is_internal_request.
  destruct (client request) as [a|]; [|discriminate].
  destruct (negb (pystr.truthy (host a))); [discriminate|].
  destruct (String.eqb (host a) "localhost"); [reflexivity|].
  destruct (ip_address (host a)) as [ip|e]; [|discriminate].
  rewrite !match_cidrs_fst, !_get_allowed_cidrs_insert.
  change ("," +:+ more) with (String "," more).
  rewrite pystr_facts.split_app, List.filter_app, List.map_app.
  rewrite !existsb_app. intros H.
  apply orb_prop in H as [-> | ->]; [reflexivity|].
  now rewrite orb_true_r.
Qed.

(** ** What the range loop logs *)

Section DeniedLog.
Context `{L : IPLibrary}.

Lemma match_cidrs_denied_log (client_host : string) (ip : IPAddress)
  (cidrs : list string) :
  (match_cidrs client_host ip cidrs).1 = false ->
  (match_cidrs client_host ip cidrs).2
  = map skip_record (List.filter rejected cidrs).
Proof.
  induction cidrs as [|cidr cidrs IH]; [reflexivity|].
  cbn [match_cidrs List.filter]. unfold rejected at 1.
  destruct (ip_network cidr false) as [net|e].
  - destruct (contains net ip); [discriminate|exact IH].
  - destruct (match_cidrs client_host ip cidrs) as [r logs].
    cbn [fst snd map] in *. intros Hr. now rewrite (IH Hr).
Qed.

(** X6. When a peer whose host text parses is denied, the log holds one
    DEBUG record for each allow-set entry [ip_network] rejects, in the
    order of the allow-set, and nothing else. *)
Theorem denied_log_lists_rejected_entries (environ : gmap string string)
  (request : Request) (a : Address) (ip : IPAddress) :
  client request = Some a -> pystr.truthy (host a) = true ->
  host a <> "localhost" -> ip_address (host a) = Ok ip ->
  (is_internal_request environ request).1 = false ->
  (is_internal_request environ request).2
  = map skip_record (List.filter rejected (_get_allowed_cidrs environ)).
Proof.
  intros Hc Ht Hl Hip.
  rewrite (is_internal_request_parsed environ request a ip Hc Ht Hl Hip).
  apply match_cidrs_denied_log.
Qed.

End DeniedLog.

(** ** How one allow-set entry is read *)

(** X7. An allow-set entry that is the text of a single address, with no
    slash, admits the addresses equal to it and no other. *)
Theorem bare_address_entry_admits_one_address (h : string)
  (ip ip' : ipaddress.IPAddress) :
  ipaddress.ip_address h = Ok ip -> in_family_range ip' ->
  @in_range cpython ip' h = same_address ip ip'.
Proof.
  intros Hip Hr'. pose proof (ipaddress_facts.ip_address_range _ _ Hip) as Hr.
  unfold in_range. cbn [ip_network contains cpython].
  destruct ip as [x|x scope].
  - apply entry_facts.ip_address_v4 in Hip.
    pose proof (entry_facts.IPv4Address_init_no_slash _ _ Hip) as Hs.
    rewrite (entry_facts.ip_network_v4_parts h h (ipaddress.MaskInt 32)
               x (ipaddress._ip_int_from_prefix 32 32) 32
               (entry_facts._split_addr_prefix_bare _ _ Hs) Hip eq_refl).
    destruct ip' as [y|y scope']; [|reflexivity].
    unfold ipaddress.contains. cbn.
    rewrite cidr_facts.masked_eqb_in_cidr by (assumption || lia).
    apply entry_facts.in_cidr_full_width.
  - apply entry_facts.ip_address_v6 in Hip as [(e & He & Hne) Hip].
    pose proof (entry_facts.IPv6Address_init_no_slash _ _ Hip) as Hs.
    rewrite (entry_facts.ip_network_v6_parts h h (ipaddress.MaskInt 32)
               (ipaddress.MaskInt 128)
               x (ipaddress._ip_int_from_prefix 128 128) 128 scope e
               (entry_facts._split_addr_prefix_bare _ _ Hs) He Hne
               (entry_facts._split_addr_prefix_bare _ _ Hs) Hip eq_refl).
    destruct ip' as [y|y scope']; [reflexivity|].
    unfold ipaddress.contains. cbn.
    rewrite cidr_facts.masked_eqb_in_cidr by (assumption || lia).
    apply entry_facts.in_cidr_full_width.
Qed.




(** ** The handlers around their awaits *)

Section Handlers.
Context {St E : Type}.
Variable get_credential : string -> option string -> option bool -> @svc St E pyval.
Variable exc_str : E -> string.

Ltac await_goal :=
  match goal with
  | |- context [get_credential ?k ?d ?c ?s] =>
      let v := fresh "v" in
      let e := fresh "e" in
      let s' := fresh "s" in
      destruct (get_credential k d c s) as [[v|e] s']; cbn beta iota
  end.

Lemma agent_credentials_dict_state (environ : gmap string string) (s : St) :
  (agent_credentials_dict get_credential environ s).2
  = await_all get_credential agents_calls s.
Proof.
  unfold agent_credentials_dict, bind, ret, agents_calls. cbn [await_all].
  repeat (await_goal; [|reflexivity]). reflexivity.
Qed.

Lemma mcp_credentials_dict_state (s : St) :
  (mcp_credentials_dict get_credential s).2
  = await_all get_credential mcp_calls s.
Proof.
  unfold mcp_credentials_dict, bind, ret, mcp_calls. cbn [await_all].
  repeat (await_goal; [|reflexivity]). reflexivity.
Qed.

Lemma agent_credentials_dict_returns (environ : gmap string string) (s : St) :
  store_raises get_credential agents_calls s = false ->
  exists credentials s',
    agent_credentials_dict get_credential environ s = (Returns credentials, s').
Proof.
  unfold agent_credentials_dict, bind, ret, agents_calls. cbn [store_raises].
  repeat (await_goal; [|discriminate]). intros _. now eexists _, _.
Qed.

Lemma mcp_credentials_dict_returns (s : St) :
  store_raises get_credential mcp_calls s = false ->
  exists credentials s',
    mcp_credentials_dict get_credential s = (Returns credentials, s').
Proof.
  unfold mcp_credentials_dict, bind, ret, mcp_calls. cbn [store_raises].
  repeat (await_goal; [|discriminate]). intros _. now eexists _, _.
Qed.

Lemma internal_has_client (environ : gmap string string) (request : Request) :
  (is_internal_request environ request).1 = true ->
  exists a, client request = Some a.
Proof.
  unfold is_internal_request. destruct (client request) as [a|]; [|discriminate].
  intros _. now exists a.
Qed.

(** X9. A request the origin check denies, from a known peer, gets
    HTTPException 403 from both handlers, one WARNING naming the peer is
    added to the log, and the credential service is left in the state it
    was in: no credential is looked up. *)
Theorem denied_request_never_reaches_store (environ : gmap string string)
  (request : Request) (a : Address) (s : St) :
  (is_internal_request environ request).1 = false ->
  client request = Some a ->
  get_agent_credentials get_credential exc_str environ request s
  = (HTTPException 403 "Access forbidden",
     (is_internal_request environ request).2
       ++ [LogRecord WARNING
             ("Unauthorized access to internal credentials from " +:+ host a)],
     s)
  /\ get_mcp_credentials get_credential exc_str environ request s
     = (HTTPException 403 "Access forbidden",
        (is_internal_request environ request).2
          ++ [LogRecord WARNING
                ("Unauthorized access to internal credentials from " +:+ host a)],
        s).
Proof.
  intros Hden Hc.
  unfold get_agent_credentials, get_mcp_credentials, forbidden.
  destruct (is_internal_request environ request) as [internal logs].
  cbn [fst snd] in *. subst internal. cbn [negb]. now rewrite Hc.
Qed.

(** X10. When the transport reports no peer at all, both handlers end in
    an AttributeError, raised while the warning is formatted; they do not
    answer 403, and the credential service is not called. *)
Theorem missing_client_is_attribute_error (environ : gmap string string)
  (request : Request) (s : St) :
  client request = None ->
  get_agent_credentials get_credential exc_str environ request s
  = (AttributeError, [], s)
  /\ get_mcp_credentials get_credential exc_str environ request s
     = (AttributeError, [], s).
Proof.
  intros Hc.
  unfold get_agent_credentials, get_mcp_credentials, forbidden,
    is_internal_request.
  now rewrite Hc.
Qed.

(** X11. For a request that passed the origin check, each handler
    returns a body exactly when none of its awaits raises. *)
Theorem body_iff_no_await_raises (environ : gmap string string)
  (request : Request) (s : St) :
  (is_internal_request environ request).1 = true ->
  ((exists body,
       (get_agent_credentials get_credential exc_str environ request s).1.1
       = Return body)
   <-> store_raises get_credential agents_calls s = false)
  /\ ((exists body,
          (get_mcp_credentials get_credential exc_str environ request s).1.1
          = Return body)
      <-> store_raises get_credential mcp_calls s = false).
Proof.
  intros Hin. destruct (internal_has_client _ _ Hin) as (a & Hc).
  unfold get_agent_credentials, get_mcp_credentials.
  destruct (is_internal_request environ request) as [internal logs].
  cbn [fst] in Hin. subst internal. cbn [negb]. rewrite Hc.
  split; split.
  - intros (body & Hb).
    destruct (store_raises get_credential agents_calls s) eqn:Hr; [|reflexivity].
    destruct (agent_credentials_dict_raises _ environ s Hr) as (e & s' & Hd).
    rewrite Hd in Hb. discriminate.
  - intros Hr.
    destruct (agent_credentials_dict_returns environ s Hr) as (m & s' & ->).
    now eexists.
  - intros (body & Hb).
    destruct (store_raises get_credential mcp_calls s) eqn:Hr; [|reflexivity].
    destruct (mcp_credentials_dict_raises _ s Hr) as (e & s' & Hd).
    rewrite Hd in Hb. discriminate.
  - intros Hr.
    destruct (mcp_credentials_dict_returns s Hr) as (m & s' & ->).
    now eexists.
Qed.

(** X12. In a body the agents handler returns, each key of the profile
    is bound to what one of the handler's awaits of that very key
    returned, and is missing when that was [None]. *)
Theorem body_binds_each_key_to_its_await (environ : gmap string string)
  (request : Request) (s : St) (body : gmap string pyval)
  (key : string) (default : option string) (decrypt : option bool) :
  (get_agent_credentials get_credential exc_str environ request s).1.1
  = Return body ->
  In (key, default, decrypt) agents_calls ->
  exists st st' v,
    get_credential key default decrypt st = (Returns v, st')
    /\ body !! key = match v with
                     | Some x => Some (Some x)
                     | None => None
                     end.
Proof.
  intros Hret Hin.
  apply get_agent_credentials_returns in Hret as (credentials & s' & Hd & ->).
  destruct (agent_credentials_dict_lookup _ _ _ _ _ Hd _ _ _ Hin)
    as (st & st' & v & Hcall & Hk).
  exists st, st', v. split; [exact Hcall|].
  rewrite filter_none_lookup, Hk. now destruct v.
Qed.

Lemma agent_credentials_dict_shape (environ : gmap string string)
  (s s' : St) (credentials : gmap string pyval) :
  agent_credentials_dict get_credential environ s = (Returns credentials, s') ->
  credentials !! "MCP_SERVICE_URL"
  = Some (Some ("http://archon-mcp:" +:+ py_str (environ !! "ARCHON_MCP_PORT")))
  /\ forall k, is_Some (credentials !! k) -> In k agents_keys.
Proof.
  unfold agent_credentials_dict, bind, ret.
  repeat (await_goal; [|discriminate]).
  intros [= <- <-]. split; [by simplify_map_eq|].
  intros k Hk.
  destruct (In_dec string_dec k agents_keys) as [Hin|Hout]; [exact Hin|].
  exfalso. cbn [In agents_keys] in Hout.
  rewrite !lookup_insert_ne, lookup_empty in Hk by (intros <-; tauto).
  now destruct Hk.
Qed.

(** X13. Every key of a body the agents handler returns is one of the
    nine keys of its dict. *)
Theorem body_keys_within_profile (environ : gmap string string)
  (request : Request) (s : St) (body : gmap string pyval) (k : string) :
  (get_agent_credentials get_credential exc_str environ request s).1.1
  = Return body ->
  is_Some (body !! k) -> In k agents_keys.
Proof.
  intros Hret Hk.
  apply get_agent_credentials_returns in Hret as (credentials & s' & Hd & ->).
  apply (agent_credentials_dict_shape _ _ _ _ Hd).
  rewrite filter_none_lookup in Hk.
  destruct (credentials !! k) as [[v|]|]; [eauto|now destruct Hk..].
Qed.

(** X14. Every body the agents handler returns binds MCP_SERVICE_URL,
    without asking the credential service: to the archon-mcp URL with the
    port text of ARCHON_MCP_PORT, and with the text None for the port when
    that variable is not set. *)
Theorem body_always_has_service_url (environ : gmap string string)
  (request : Request) (s : St) (body : gmap string pyval) :
  (get_agent_credentials get_credential exc_str environ request s).1.1
  = Return body ->
  body !! "MCP_SERVICE_URL"
  = Some (Some ("http://archon-mcp:"
                  +:+ match environ !! "ARCHON_MCP_PORT" with
                      | Some port => port
                      | None => "None"
                      end)).
Proof.
  intros Hret.
  apply get_agent_credentials_returns in Hret as (credentials & s' & Hd & ->).
  rewrite filter_none_lookup.
  now rewrite (proj1 (agent_credentials_dict_shape _ _ _ _ Hd)).
Qed.

(** X15. When a handler returns a body, what it added to the log of the
    origin check is one INFO record that names the peer host and nothing
    else: no key and no value of the body is logged. *)
Theorem success_log_names_only_the_peer (environ : gmap string string)
  (request : Request) (s : St) (body : gmap string pyval) :
  ((get_agent_credentials get_credential exc_str environ request s).1.1
   = Return body ->
   exists a, client request = Some a
     /\ (get_agent_credentials get_credential exc_str environ request s).1.2
        = (is_internal_request environ request).2
            ++ [LogRecord INFO
                  ("Provided credentials to agents service from " +:+ host a)])
  /\ ((get_mcp_credentials get_credential exc_str environ request s).1.1
      = Return body ->
      exists a, client request = Some a
        /\ (get_mcp_credentials get_credential exc_str environ request s).1.2
           = (is_internal_request environ request).2
               ++ [LogRecord INFO
                     ("Provided credentials to MCP service from " +:+ host a)]).
Proof.
  unfold get_agent_credentials, get_mcp_credentials, forbidden.
  destruct (is_internal_request environ request) as [internal logs].
  cbn [snd]. split.
  - destruct internal; cbn [negb];
      [|destruct (client request); discriminate].
    destruct (agent_credentials_dict get_credential environ s) as [[m|e] s'];
      [|discriminate].
    destruct (client request) as [a|]; [|discriminate].
    intros _. now exists a.
  - destruct internal; cbn [negb];
      [|destruct (client request); discriminate].
    destruct (mcp_credentials_dict get_credential s) as [[m|e] s'];
      [|discriminate].
    destruct (client request) as [a|]; [|discriminate].
    intros _. now exists a.
Qed.

(** X16. For a request that passed the origin check, each handler leaves
    the credential service in the state reached by awaiting the calls of
    its profile in source order, none after the first that raises. *)
Theorem store_left_as_awaits_leave_it (environ : gmap string string)
  (request : Request) (s : St) :
  (is_internal_request environ request).1 = true ->
  (get_agent_credentials get_credential exc_str environ request s).2
  = await_all get_credential agents_calls s
  /\ (get_mcp_credentials get_credential exc_str environ request s).2
     = await_all get_credential mcp_calls s.
Proof.
  intros Hin. rewrite <- agent_credentials_dict_state with (environ := environ).
  rewrite <- mcp_credentials_dict_state.
  unfold get_agent_credentials, get_mcp_credentials.
  destruct (is_internal_request environ request) as [internal logs].
  cbn [fst] in Hin. subst internal. cbn [negb]. split.
  - destruct (agent_credentials_dict get_credential environ s) as [[m|e] s'];
      [destruct (client request)|]; reflexivity.
  - destruct (mcp_credentials_dict get_credential s) as [[m|e] s'];
      [destruct (client request)|]; reflexivity.
Qed.

End Handlers.

(** ** The further properties at concrete requests *)

Lemma extension_read_back_witness :
  _get_allowed_cidrs
    (<["ALLOWED_INTERNAL_CIDRS" := "203.0.113.0/24,fd00::/8"]> ∅)
  = DEFAULT_ALLOWED_CIDRS ++ ["203.0.113.0/24"; "fd00::/8"].
Proof.
  apply (extension_read_back ∅ ["203.0.113.0/24"; "fd00::/8"]).
  repeat (constructor; [split; [reflexivity|split; reflexivity]|]).
  constructor.
Defined.

Lemma baseline_cannot_be_disabled_witness :
  (is_internal_request (<["ALLOWED_INTERNAL_CIDRS" := "not-a-cidr"]> ∅)
                       (request_from "192.168.1.1")).1 = true.
Proof.
  apply (baseline_cannot_be_disabled _ (request_from "192.168.1.1")
           {| host := "192.168.1.1"; port := 0 |}
           (ipaddress.IPv4Address (ipv4 192 168 1 1)));
    [reflexivity | vm_compute; reflexivity | vm_compute; reflexivity].
Defined.

Lemma appending_entries_keeps_trust_witness :
  (is_internal_request
     (<["ALLOWED_INTERNAL_CIDRS" := "203.0.113.0/24,not-a-cidr"]> ∅)
     (request_from "203.0.113.5")).1 = true.
Proof.
  apply (appending_entries_keeps_trust ∅ "203.0.113.0/24" "not-a-cidr"
           (request_from "203.0.113.5")).
  vm_compute. reflexivity.
Defined.

Lemma denied_log_lists_rejected_entries_witness :
  (is_internal_request
     (<["ALLOWED_INTERNAL_CIDRS" := "bad,10.0.0.0/8,300.1.1.1/8"]> ∅)
     (request_from "8.8.8.8")).2
  = [skip_record "bad"; skip_record "300.1.1.1/8"].
Proof.
  etransitivity.
  - apply (denied_log_lists_rejected_entries
             (<["ALLOWED_INTERNAL_CIDRS" := "bad,10.0.0.0/8,300.1.1.1/8"]> ∅)
             (request_from "8.8.8.8") {| host := "8.8.8.8"; port := 0 |}
             (ipaddress.IPv4Address (ipv4 8 8 8 8) : @IPAddress cpython));
      [reflexivity | reflexivity | discriminate
      | vm_compute; reflexivity | vm_compute; reflexivity].
  - vm_compute. reflexivity.
Defined.

Lemma bare_address_entry_admits_one_address_witness :
  @in_range cpython (ipaddress.IPv4Address (ipv4 203 0 113 7)) "203.0.113.7"
  = true
  /\ @in_range cpython (ipaddress.IPv4Address (ipv4 203 0 113 8)) "203.0.113.7"
     = false.
Proof.
  split.
  - etransitivity.
    + apply (bare_address_entry_admits_one_address "203.0.113.7"
               (ipaddress.IPv4Address (ipv4 203 0 113 7)));
        [vm_compute; reflexivity | cbn; unfold ipv4; lia].
    + vm_compute. reflexivity.
  - etransitivity.
    + apply (bare_address_entry_admits_one_address "203.0.113.7"
               (ipaddress.IPv4Address (ipv4 203 0 113 7)));
        [vm_compute; reflexivity | cbn; unfold ipv4; lia].
    + vm_compute. reflexivity.
Defined.


Lemma denied_request_never_reaches_store_witness :
  get_agent_credentials (answering (Some "secret")) no_text ∅
                        (request_from "8.8.8.8") 7%nat
  = (HTTPException 403 "Access forbidden",
     [LogRecord WARNING
        "Unauthorized access to internal credentials from 8.8.8.8"],
     7%nat).
Proof.
  assert (Hden : (is_internal_request ∅ (request_from "8.8.8.8")).1 = false)
    by (vm_compute; reflexivity).
  destruct (denied_request_never_reaches_store
              (answering (Some "secret")) no_text ∅ (request_from "8.8.8.8")
              {| host := "8.8.8.8"; port := 0 |} 7%nat Hden eq_refl)
    as [Hagents _].
  etransitivity; [exact Hagents|]. vm_compute. reflexivity.
Defined.

Lemma missing_client_is_attribute_error_witness :
  get_mcp_credentials (answering (Some "secret")) no_text ∅
    {| client := None; headers := []; url_path := "/internal/credentials/mcp" |}
    7%nat
  = (AttributeError, [], 7%nat).
Proof.
  apply (proj2 (missing_client_is_attribute_error
                  (answering (Some "secret")) no_text ∅
                  {| client := None; headers := [];
                     url_path := "/internal/credentials/mcp" |} 7%nat eq_refl)).
Defined.

Lemma body_iff_no_await_raises_witness :
  exists body,
    (get_agent_credentials (answering (Some "value")) no_text ∅
                           (request_from "10.1.2.3") 0%nat).1.1 = Return body.
Proof.
  assert (Hin : (is_internal_request ∅ (request_from "10.1.2.3")).1 = true)
    by (vm_compute; reflexivity).
  apply (proj2 (proj1 (body_iff_no_await_raises
                         (answering (Some "value")) no_text ∅
                         (request_from "10.1.2.3") 0%nat Hin))).
  vm_compute. reflexivity.
Defined.

Lemma body_binds_each_key_to_its_await_witness :
  exists body,
    (get_agent_credentials (silent_on "OPENAI_API_KEY") no_text ∅
                           (request_from "10.1.2.3") 0%nat).1.1 = Return body
    /\ exists st st' v,
        silent_on "OPENAI_API_KEY" "OPENAI_API_KEY" None (Some true) st
        = (Returns v, st')
        /\ body !! "OPENAI_API_KEY" = match v with
                                      | Some x => Some (Some x)
                                      | None => None
                                      end.
Proof.
  eexists. split; [reflexivity|].
  apply (body_binds_each_key_to_its_await
           (silent_on "OPENAI_API_KEY") no_text ∅
           (request_from "10.1.2.3") 0%nat _ "OPENAI_API_KEY" None (Some true));
    [reflexivity | cbn; tauto].
Defined.

Lemma body_keys_within_profile_witness :
  exists body,
    (get_agent_credentials (answering (Some "value")) no_text ∅
                           (request_from "10.1.2.3") 0%nat).1.1 = Return body
    /\ body !! "LOG_LEVEL" = Some (Some "value")
    /\ In "LOG_LEVEL" agents_keys.
Proof.
  eexists. split; [reflexivity|].
  assert (Hk : filter_none
                 (<["LOG_LEVEL" := Some "value"]>
                  (<["MCP_SERVICE_URL" :=
                       Some ("http://archon-mcp:"
                               +:+ py_str ((∅ : gmap string string)
                                             !! "ARCHON_MCP_PORT"))]>
                   (<["AGENT_MAX_RETRIES" := Some "value"]>
                    (<["AGENT_RATE_LIMIT_ENABLED" := Some "value"]>
                     (<["TASK_AGENT_MODEL" := Some "value"]>
                      (<["RAG_AGENT_MODEL" := Some "value"]>
                       (<["DOCUMENT_AGENT_MODEL" := Some "value"]>
                        (<["OPENAI_MODEL" := Some "value"]>
                         (<["OPENAI_API_KEY" := Some "value"]> ∅)))))))))
               !! "LOG_LEVEL" = Some (Some "value"))
    by (vm_compute; reflexivity).
  split; [exact Hk|].
  apply (body_keys_within_profile
           (answering (Some "value")) no_text ∅ (request_from "10.1.2.3") 0%nat
           _ "LOG_LEVEL" eq_refl).
  rewrite Hk. now eexists.
Defined.

Lemma body_always_has_service_url_witness :
  exists body body',
    (get_agent_credentials (answering (Some "value")) no_text ∅
                           (request_from "10.1.2.3") 0%nat).1.1 = Return body
    /\ body !! "MCP_SERVICE_URL" = Some (Some "http://archon-mcp:None")
    /\ (get_agent_credentials (answering (Some "value")) no_text
                              (<["ARCHON_MCP_PORT" := "8051"]> ∅)
                              (request_from "10.1.2.3") 0%nat).1.1 = Return body'
    /\ body' !! "MCP_SERVICE_URL" = Some (Some "http://archon-mcp:8051").
Proof.
  eexists _, _. split; [reflexivity|]. split; [|split; [reflexivity|]].
  - etransitivity.
    + apply (body_always_has_service_url
               (answering (Some "value")) no_text ∅
               (request_from "10.1.2.3") 0%nat _ eq_refl).
    + reflexivity.
  - etransitivity.
    + apply (body_always_has_service_url
               (answering (Some "value")) no_text
               (<["ARCHON_MCP_PORT" := "8051"]> ∅)
               (request_from "10.1.2.3") 0%nat _ eq_refl).
    + vm_compute. reflexivity.
Defined.

Lemma success_log_names_only_the_peer_witness :
  exists a,
    client (request_from "localhost") = Some a
    /\ (get_mcp_credentials (answering (Some "secret")) no_text ∅
                            (request_from "localhost") 0%nat).1.2
       = (is_internal_request ∅ (request_from "localhost")).2
           ++ [LogRecord INFO
                 ("Provided credentials to MCP service from " +:+ host a)].
Proof.
  apply (proj2 (success_log_names_only_the_peer
                  (answering (Some "secret")) no_text ∅
                  (request_from "localhost") 0%nat
                  {[ "LOG_LEVEL" := Some "secret" ]})).
  vm_compute. reflexivity.
Defined.

Lemma store_left_as_awaits_leave_it_witness :
  (get_agent_credentials (failing_at "RAG_AGENT_MODEL") no_text ∅
                         (request_from "10.1.2.3") 0%nat).2 = 4%nat.
Proof.
  assert (Hin : (is_internal_request ∅ (request_from "10.1.2.3")).1 = true)
    by (vm_compute; reflexivity).
  etransitivity.
  - apply (proj1 (store_left_as_awaits_leave_it
                    (failing_at "RAG_AGENT_MODEL") no_text ∅
                    (request_from "10.1.2.3") 0%nat Hin)).
  - vm_compute. reflexivity.
Defined.
